(** * Cycle time and work item age: the metrics routine of [app.py]

    A shallow embedding of [normalize_status], [coerce_datetime] and
    [compute_metrics], and the properties of the result table and of the
    status catalogue.

    Conventions of the model.
    - A cell of a data frame is missing ([NA]: [None], [NaN] and [NaT] alike,
      which pandas treats alike in [dropna], [notna] and [isin]), a string, a
      number, or a timestamp.
    - Strings are ASCII text: [lower], [upper] and [strip] act on the ASCII
      letters and the ASCII white space and leave every other byte alone.
    - A timestamp is a count of nanoseconds since 1970-01-01 00:00 (no time
      zone); a calendar date is a count of days since 1970-01-01.
    - pandas refuses to take the minimum of timestamps with and without a
      zone and to join a key column of strings with one of numbers. These
      refusals are not followed: grouping and joining are total here, and
      the statements below are about calls that return, or say that two
      calls end alike.
    - Data frames live in an object store; a Python variable holds a
      reference. [rename], [copy] and [dropna] allocate, item assignment
      [df[label] = ...] writes through the reference.
    - [pd.to_datetime] and the clock read ([pytz.timezone] followed by
      [datetime.now]) are parameters of the development. *)

From Stdlib Require Import ZArith Ascii String.
From stdpp Require Import base tactics option list gmap strings sorting.

Local Open Scope Z_scope.

(** ** Cells and frames *)

Definition Timestamp := Z.

Inductive cell :=
  | NA
  | Str (s : string)
  | Num (n : Z)
  | Ts (t : Timestamp).

Global Instance cell_eq_dec : EqDecision cell.
Proof. solve_decision. Defined.

Global Instance cell_inhabited : Inhabited cell := populate NA.

(** [pd.notna] on a scalar. *)
Definition notna (c : cell) : bool :=
  match c with NA => false | _ => true end.

(** [isinstance(s, str)], giving the string. *)
Definition as_str (c : cell) : option string :=
  match c with Str s => Some s | _ => None end.

(** A frame: its column labels and its rows; a row shorter than the label
    list reads as missing cells on the right. *)
Record DataFrame := { columns : list string; values : list (list cell) }.

Global Instance DataFrame_eq_dec : EqDecision DataFrame.
Proof. solve_decision. Defined.

Global Instance DataFrame_inhabited : Inhabited DataFrame :=
  populate {| columns := []; values := [] |}.

Definition cell_at (i : nat) (row : list cell) : cell := row !!! i.

Fixpoint set_cell (i : nat) (v : cell) (row : list cell) : list cell :=
  match i, row with
  | O, [] => [v]
  | O, _ :: tl => v :: tl
  | S j, [] => NA :: set_cell j v []
  | S j, c :: tl => c :: set_cell j v tl
  end.

(** ** Python string methods on ASCII text *)

Definition ascii_lower (c : ascii) : ascii :=
  let n := N_of_ascii c in
  if ((65 <=? n) && (n <=? 90))%N then ascii_of_N (n + 32) else c.

Definition ascii_upper (c : ascii) : ascii :=
  let n := N_of_ascii c in
  if ((97 <=? n) && (n <=? 122))%N then ascii_of_N (n - 32) else c.

Definition ascii_isspace (c : ascii) : bool :=
  let n := N_of_ascii c in
  (((9 <=? n) && (n <=? 13)) || ((28 <=? n) && (n <=? 32)))%N.

Fixpoint string_map (f : ascii → ascii) (s : string) : string :=
  match s with
  | EmptyString => EmptyString
  | String c s' => String (f c) (string_map f s')
  end.

Definition lower : string → string := string_map ascii_lower.
Definition upper : string → string := string_map ascii_upper.

Fixpoint lstrip (s : string) : string :=
  match s with
  | EmptyString => EmptyString
  | String c s' => if ascii_isspace c then lstrip s' else s
  end.

Fixpoint rstrip (s : string) : string :=
  match s with
  | EmptyString => EmptyString
  | String c s' =>
      match rstrip s' with
      | EmptyString => if ascii_isspace c then EmptyString else String c EmptyString
      | r => String c r
      end
  end.

Definition strip (s : string) : string := rstrip (lstrip s).

(** [normalize_status]: trimmed and upper-cased when a string, unchanged
    otherwise. *)
Definition normalize_status (s : cell) : cell :=
  match s with
  | Str x => Str (upper (strip x))
  | _ => s
  end.

(** ** Calendar dates *)

Definition ns_per_day : Z := 86400 * 1000000000.

(** [Timestamp.date()], as a day number. *)
Definition date (t : Timestamp) : Z := t `div` ns_per_day.

(** Day number of a civil date (proleptic Gregorian calendar). *)
Definition days_from_civil (y m d : Z) : Z :=
  let y' := if m <=? 2 then y - 1 else y in
  let era := y' `div` 400 in
  let yoe := y' - era * 400 in
  let mp := if 2 <? m then m - 3 else m + 9 in
  let doy := (153 * mp + 2) `div` 5 + d - 1 in
  let doe := yoe * 365 + yoe `div` 4 - yoe `div` 100 + doy in
  era * 146097 + doe - 719468.

Definition timestamp_of (y m d hh mm ss : Z) : Timestamp :=
  days_from_civil y m d * ns_per_day + ((hh * 60 + mm) * 60 + ss) * 1000000000.

(** ** The object store *)

Definition ref := nat.
Definition heap := list DataFrame.

Inductive exn :=
  | ValueError (missing : list string)
      (* "Missing required columns: [...]" *)
  | UnknownTimeZoneError (tz_name : string)
      (* raised by pytz.timezone *)
  | NotOneColumn (label : string).
      (* the label selects no column or several: pandas then hands a
         sub-frame (or raises KeyError) where the routine expects one
         column; the routine is not followed further *)

Global Instance exn_eq_dec : EqDecision exn.
Proof. solve_decision. Defined.

Definition M (A : Type) : Type := heap → heap * (exn + A).

Global Instance M_ret : MRet M := λ A a h, (h, inr a).
Global Instance M_bind : MBind M := λ A B f m h,
  match m h with
  | (h', inl e) => (h', inl e)
  | (h', inr a) => f a h'
  end.

Definition raise {A} (e : exn) : M A := λ h, (h, inl e).
Definition deref (r : ref) : M DataFrame := λ h, (h, inr (h !!! r)).
Definition alloc (d : DataFrame) : M ref := λ h, (h ++ [d], inr (length h)).
Definition modify (r : ref) (f : DataFrame → DataFrame) : M unit :=
  λ h, (alter f r h, inr tt).

(** ** Frame operations *)

(** [df.rename(columns=mapper)]: a new frame. *)
Definition rename (mapper : gmap string string) (d : DataFrame) : DataFrame :=
  {| columns := (λ c, default c (mapper !! c)) <$> columns d;
     values := values d |}.

(** [df.copy()]. *)
Definition copy (d : DataFrame) : DataFrame :=
  {| columns := columns d; values := values d |}.

(** Position of the one column with this label. *)
Definition get_loc (label : string) (cols : list string) : option nat :=
  match filter (λ i, cols !! i = Some label) (seq 0 (length cols)) with
  | [i] => Some i
  | _ => None
  end.

Definition column_index (df : ref) (label : string) : M nat :=
  d ← deref df;
  match get_loc label (columns d) with
  | Some i => mret i
  | None => raise (NotOneColumn label)
  end.

(** [df[label] = df[label].apply(f)] *)
Definition apply_column (df : ref) (label : string) (f : cell → cell) : M unit :=
  i ← column_index df label;
  modify df (λ d, {| columns := columns d;
                     values := (λ row, set_cell i (f (cell_at i row)) row) <$> values d |}).

(** [df.dropna(subset=[a, b])]: a new frame with the rows that have a value
    in both columns. *)
Definition dropna (df : ref) (a b : string) : M ref :=
  i ← column_index df a;
  j ← column_index df b;
  d ← deref df;
  alloc {| columns := columns d;
           values := filter (λ row, notna (cell_at i row) && notna (cell_at j row)) (values d) |}.

(** ** Rows of the working frame and of the result table *)

Module Event.
(** A row of [df], read at its four resolved columns. *)
Record t := { Key : cell; Date_of_change : cell; Status : cell; Status_new : cell }.
End Event.

Record MetricResult := {
  Key : cell;
  In_Progress_Date : option Timestamp;   (* None is NaT *)
  Done_Date : option Timestamp;
  Days : option Z;
  Metric_Type : option string
}.

Global Instance MetricResult_eq_dec : EqDecision MetricResult.
Proof. solve_decision. Defined.

(** The rows of the frame behind [df], column by column label. *)
Definition records (df : ref) : M (list Event.t) :=
  k ← column_index df "Key";
  d ← column_index df "Date of change";
  s ← column_index df "Status";
  n ← column_index df "Status [new]";
  f ← deref df;
  mret ((λ row, {| Event.Key := cell_at k row; Event.Date_of_change := cell_at d row;
                   Event.Status := cell_at s row; Event.Status_new := cell_at n row |})
          <$> values f).

(** [pd.unique]: distinct values in order of first appearance. *)
Fixpoint unique `{EqDecision A} (l : list A) : list A :=
  match l with
  | [] => []
  | x :: l' => x :: filter (λ y, y ≠ x) (unique l')
  end.

(** Order of the key column: numbers by value, timestamps by instant,
    strings byte by byte. pandas compares keys of one type; where a column
    mixes types the order taken here is numbers, then timestamps, then
    strings, and no property below depends on it. *)
Definition cell_leb (a b : cell) : bool :=
  match a, b with
  | Num x, Num y => x <=? y
  | Num _, _ => true
  | Ts _, Num _ => false
  | Ts x, Ts y => x <=? y
  | Ts _, _ => true
  | Str _, (Num _ | Ts _) => false
  | Str x, Str y => String.leb x y
  | Str _, NA => true
  | NA, NA => true
  | NA, _ => false
  end.

Definition cell_le (a b : cell) : Prop := cell_leb a b.

Global Instance cell_le_dec : RelDecision cell_le.
Proof. intros a b. unfold cell_le. apply _. Defined.

(** [series.isin(aliases)] on one entry. *)
Definition isin (aliases : gset string) (c : cell) : bool :=
  match c with
  | Str s => bool_decide (s ∈ aliases)
  | _ => false
  end.

(** [Series.min()] of a column of timestamps: missing entries are skipped,
    and the minimum of nothing is NaT. *)
Definition ts_min (acc : option Timestamp) (c : cell) : option Timestamp :=
  match c, acc with
  | Ts t, Some m => Some (Z.min m t)
  | Ts t, None => Some t
  | _, _ => acc
  end.

Definition series_min (l : list cell) : option Timestamp := foldl ts_min None l.

(** [rows.groupby("Key", as_index=False)["Date of change"].min()]: one row
    per key, keys in ascending order; rows without a key form no group. *)
Definition groupby_min (rows : list Event.t) : list (cell * option Timestamp) :=
  (λ k, (k, series_min (Event.Date_of_change <$> filter (λ e, Event.Key e = k) rows)))
    <$> merge_sort cell_le (unique (filter (λ k, notna k) (Event.Key <$> rows))).

Definition lookup_key (k : cell) (tbl : list (cell * option Timestamp)) : option Timestamp :=
  match list_find (λ p, p.1 = k) tbl with
  | Some (_, (_, v)) => v
  | None => None
  end.

(** [pd.merge(in_prog, done, on="Key", how="outer")]: the keys of either
    side in key order; under a key, one row for every pair of a left row and
    a right row with that key, and, where one side has no row with the key,
    one row for every row of the other side, the date of the absent side
    NaT. (pandas refuses to join a key column of strings with one of
    numbers; that refusal is not followed here, and the statements below are
    about calls that return or compare how two calls end.) *)
Definition merge_outer (in_prog done : list (cell * option Timestamp)) : list MetricResult :=
  k ← merge_sort cell_le (unique (in_prog.*1 ++ done.*1));
  match filter (λ p, p.1 = k) in_prog, filter (λ q, q.1 = k) done with
  | [], rs =>
      (λ q, {| Key := k; In_Progress_Date := None; Done_Date := q.2;
               Days := None; Metric_Type := None |}) <$> rs
  | ls, [] =>
      (λ p, {| Key := k; In_Progress_Date := p.2; Done_Date := None;
               Days := None; Metric_Type := None |}) <$> ls
  | ls, rs =>
      p ← ls; q ← rs;
      [ {| Key := k; In_Progress_Date := p.2; Done_Date := q.2;
           Days := None; Metric_Type := None |} ]
  end.

Definition row_days (today_local : Z) (r : MetricResult) : option Z :=
  let ip := In_Progress_Date r in
  let dn := Done_Date r in
  match ip with
  | Some ip =>
      let ip_d := date ip in
      match dn with
      | Some dn => let dn_d := date dn in Some (dn_d - ip_d + 1)
      | None => Some (today_local - ip_d + 1)
      end
  | None => None
  end.

Definition row_type (r : MetricResult) : option string :=
  match Done_Date r with
  | Some _ => Some "Cycle Time"
  | None =>
      match In_Progress_Date r with
      | Some _ => Some "Work Item Age"
      | None => None
      end
  end.

(** [results["Days"] = ...] and [results["Metric Type"] = ...], row by row. *)
Definition set_Days (v : option Z) (r : MetricResult) : MetricResult :=
  {| Key := Key r; In_Progress_Date := In_Progress_Date r; Done_Date := Done_Date r;
     Days := v; Metric_Type := Metric_Type r |}.

Definition set_Metric_Type (v : option string) (r : MetricResult) : MetricResult :=
  {| Key := Key r; In_Progress_Date := In_Progress_Date r; Done_Date := Done_Date r;
     Days := Days r; Metric_Type := v |}.

(** Order of [sort_values(by=["Metric Type", "Key"])]: ascending, a missing
    metric type last. *)
Definition metric_key_leb (a b : MetricResult) : bool :=
  match Metric_Type a, Metric_Type b with
  | Some x, Some y =>
      if decide (x = y) then cell_leb (Key a) (Key b) else String.leb x y
  | Some _, None => true
  | None, Some _ => false
  | None, None => cell_leb (Key a) (Key b)
  end.

Definition metric_key_le (a b : MetricResult) : Prop := metric_key_leb a b.

Global Instance metric_key_le_dec : RelDecision metric_key_le.
Proof. intros a b. unfold metric_key_le. apply _. Defined.

Definition sort_values : list MetricResult → list MetricResult :=
  merge_sort metric_key_le.

(** The status catalogue of the working frame. *)
Definition status_catalog (df : list Event.t) : list string :=
  let unique_statuses :=
    unique (filter (λ c, notna c) (Event.Status <$> df)
              ++ filter (λ c, notna c) (Event.Status_new <$> df)) in
  merge_sort String.le (omap as_str unique_statuses).

Definition required : list string := ["key"; "date of change"; "status"; "status [new]"].

(** [{c.lower(): c for c in columns}]: a later column wins. *)
Definition cols (columns : list string) : gmap string string :=
  foldl (λ m c, <[lower c := c]> m) ∅ columns.

(** [[c for c in required if c not in cols]] *)
Definition missing (columns : list string) : list string :=
  filter (λ c, cols columns !! c = None) required.

(** The dictionary handed to [rename]. *)
Definition mapper (columns : list string) : gmap string string :=
  <[cols columns !!! "status [new]" := "Status [new]"]>
    (<[cols columns !!! "status" := "Status"]>
      (<[cols columns !!! "date of change" := "Date of change"]>
        (<[cols columns !!! "key" := "Key"]> ∅))).

(** Positions of the four columns in the renamed frame, looked up in the
    order the routine first selects them. *)
Definition locate (cs : list string) : exn + (nat * nat * nat * nat) :=
  match get_loc "Status" cs with
  | None => inl (NotOneColumn "Status")
  | Some s =>
      match get_loc "Status [new]" cs with
      | None => inl (NotOneColumn "Status [new]")
      | Some n =>
          match get_loc "Date of change" cs with
          | None => inl (NotOneColumn "Date of change")
          | Some d =>
              match get_loc "Key" cs with
              | None => inl (NotOneColumn "Key")
              | Some k => inr (k, d, s, n)
              end
          end
      end
  end.

(** The test of [dropna(subset=["Key", "Date of change"])] on a row of the
    frame and on the row read at its four columns. *)
Definition keep_row (k d : nat) (row : list cell) : bool :=
  notna (cell_at k row) && notna (cell_at d row).

Definition retained (e : Event.t) : bool :=
  notna (Event.Key e) && notna (Event.Date_of_change e).

(** [v] is the earliest timestamp of a row of [rows] with key [k] whose new
    status is one of [aliases], or NaT when there is no such row. *)
Definition is_first_transition (rows : list Event.t) (k : cell)
    (aliases : gset string) (v : option Timestamp) : Prop :=
  match v with
  | Some t =>
      (∃ e, e ∈ rows ∧ Event.Key e = k ∧ isin aliases (Event.Status_new e)
            ∧ Event.Date_of_change e = Ts t)
      ∧ ∀ e t', e ∈ rows → Event.Key e = k → isin aliases (Event.Status_new e) →
                Event.Date_of_change e = Ts t' → t ≤ t'
  | None =>
      ∀ e, e ∈ rows → Event.Key e = k → ¬ isin aliases (Event.Status_new e)
  end.

(** ** [compute_metrics] *)

Section compute_metrics.

(** [pd.to_datetime(s, utc=False, errors="coerce")] on a scalar: [None]
    when it raises, else a timestamp or NaT. *)
Variable to_datetime : cell → option (option Timestamp).

(** [datetime.now(tz=pytz.timezone(tz_name)).date()]: [None] when pytz
    does not know the name. *)
Variable today_in : string → option Z.

Definition coerce_datetime (s : cell) : cell :=
  match to_datetime s with
  | Some (Some t) => Ts t
  | Some None => NA
  | None => NA
  end.

Definition now_date (tz_name : string) : M Z :=
  match today_in tz_name with
  | Some d => mret d
  | None => raise (UnknownTimeZoneError tz_name)
  end.

Definition compute_metrics (df_raw : ref) (tz_name : string)
    (in_prog_set done_set : gset string) : M (list MetricResult * list string) :=
  raw ← deref df_raw;
  if decide (missing (columns raw) = []) then
    tmp ← alloc (rename (mapper (columns raw)) raw);
    renamed ← deref tmp;
    df ← alloc (copy renamed);
    apply_column df "Status" normalize_status;;
    apply_column df "Status [new]" normalize_status;;
    apply_column df "Date of change" coerce_datetime;;
    df ← dropna df "Key" "Date of change";
    rows ← records df;
    let in_prog :=
      groupby_min (filter (λ e, isin in_prog_set (Event.Status_new e)) rows) in
    let done :=
      groupby_min (filter (λ e, isin done_set (Event.Status_new e)) rows) in
    let results := merge_outer in_prog done in
    today_local ← now_date tz_name;
    let results := (λ r, set_Days (row_days today_local r) r) <$> results in
    let results := (λ r, set_Metric_Type (row_type r) r) <$> results in
    let unique_statuses := status_catalog rows in
    mret (sort_values results, unique_statuses)
  else raise (ValueError (missing (columns raw))).

(** *** The working event set, read off the raw frame *)

(** The row of [df] that a raw row becomes, given the positions of the
    four columns. *)
Definition event_of (k d s n : nat) (row : list cell) : Event.t :=
  {| Event.Key := cell_at k row;
     Event.Date_of_change := coerce_datetime (cell_at d row);
     Event.Status := normalize_status (cell_at s row);
     Event.Status_new := normalize_status (cell_at n row) |}.

(** The rows that survive [dropna]. *)
Definition working_set (raw : DataFrame) : list Event.t :=
  match locate (columns (rename (mapper (columns raw)) raw)) with
  | inr (k, d, s, n) => filter (λ e, retained e) (event_of k d s n <$> values raw)
  | inl _ => []
  end.

(** The row of [df] after the three column assignments, and the test of
    [dropna] on it. *)
Definition normalize_row (d s n : nat) (row : list cell) : list cell :=
  let row := set_cell s (normalize_status (cell_at s row)) row in
  let row := set_cell n (normalize_status (cell_at n row)) row in
  set_cell d (coerce_datetime (cell_at d row)) row.

(** What a call returns, as a function of the frame behind [df_raw]. *)
Definition outcome (raw : DataFrame) (tz_name : string)
    (in_prog_set done_set : gset string) : exn + list MetricResult * list string :=
  if decide (missing (columns raw) = []) then
    match locate (columns (rename (mapper (columns raw)) raw)) with
    | inl e => inl e
    | inr _ =>
        match today_in tz_name with
        | None => inl (UnknownTimeZoneError tz_name)
        | Some today_local =>
            let rows := working_set raw in
            inr (sort_values
                   ((λ r, set_Metric_Type (row_type r) r) <$>
                    ((λ r, set_Days (row_days today_local r) r) <$>
                     merge_outer
                       (groupby_min
                          (filter (λ e, isin in_prog_set (Event.Status_new e)) rows))
                       (groupby_min
                          (filter (λ e, isin done_set (Event.Status_new e)) rows)))),
                 status_catalog rows)
        end
    end
  else inl (ValueError (missing (columns raw))).

End compute_metrics.

(** ** A parser and a clock to run the routine on examples *)

Definition digit (c : ascii) : option Z := Z.of_nat <$> Ascii.is_nat c.

Definition two_digits (a b : ascii) : option Z :=
  x ← digit a; y ← digit b; Some (10 * x + y).

Definition days_in_month (y m : Z) : Z :=
  if m =? 2 then
    if ((y `mod` 4 =? 0) && negb (y `mod` 100 =? 0)) || (y `mod` 400 =? 0) then 29 else 28
  else if (m =? 4) || (m =? 6) || (m =? 9) || (m =? 11) then 30 else 31.

Definition iso_time (s : string) : option Z :=
  match s with
  | EmptyString => Some 0
  | String sep (String h1 (String h2 (String ":" (String m1 (String m2
      (String ":" (String s1 (String s2 EmptyString)))))))) =>
      if bool_decide (sep = " "%char ∨ sep = "T"%char) then
        hh ← two_digits h1 h2; mm ← two_digits m1 m2; ss ← two_digits s1 s2;
        if (hh <? 24) && (mm <? 60) && (ss <? 60)
        then Some (((hh * 60 + mm) * 60 + ss) * 1000000000) else None
      else None
  | _ => None
  end.

(** [pd.to_datetime] on datetime cells, missing cells and ISO 8601 text
    ([YYYY-MM-DD], optionally followed by [ HH:MM:SS]); any other text is
    taken as unparseable here. *)
Definition iso_to_datetime (c : cell) : option (option Timestamp) :=
  match c with
  | Ts t => Some (Some t)
  | NA => Some None
  | Num n => Some (Some n)
  | Str (String y1 (String y2 (String y3 (String y4 (String "-" (String m1
      (String m2 (String "-" (String d1 (String d2 rest)))))))))) =>
      Some (yh ← two_digits y1 y2; yl ← two_digits y3 y4;
            m ← two_digits m1 m2; d ← two_digits d1 d2;
            ns ← iso_time rest;
            let y := 100 * yh + yl in
            if (1 <=? m) && (m <=? 12) && (1 <=? d) && (d <=? days_in_month y m)
            then Some (days_from_civil y m d * ns_per_day + ns) else None)
  | Str _ => Some None
  end.

(** A clock that knows two zone names and reads 2024-01-10 in both. *)
Definition clock_2024_01_10 (tz_name : string) : option Z :=
  if bool_decide (tz_name = "America/New_York" ∨ tz_name = "UTC")
  then Some (days_from_civil 2024 1 10) else None.

Definition default_in_progress : gset string :=
  {[ "IN PROGRESS"; "IN-PROGRESS"; "IN_PROGRESS"; "INPROGRESS" ]}.
Definition default_done : gset string := {[ "DONE"; "CLOSED"; "RESOLVED" ]}.

Definition standard_columns : list string :=
  ["Key"; "Date of change"; "Status"; "Status [new]"].

(** [Timestamp.normalize()]: the date portion, time of day set to 00:00. *)
Definition normalize (t : Timestamp) : Timestamp := date t * ns_per_day.

Definition scenario_K1 : DataFrame :=
  {| columns := standard_columns;
     values := [ [Str "K1"; Str "2024-01-01"; Str "To Do"; Str "IN PROGRESS"];
                 [Str "K1"; Str "2024-01-05"; Str "In Progress"; Str "DONE"] ] |}.

(** A call on a store that holds one frame, with the parser, the clock and
    the default aliases above. *)
Definition call (raw : DataFrame) : heap * (exn + list MetricResult * list string) :=
  compute_metrics iso_to_datetime clock_2024_01_10 0%nat "UTC"
    default_in_progress default_done [raw].


Definition scenario_K1_row : MetricResult :=
  {| Key := Str "K1";
     In_Progress_Date := Some (timestamp_of 2024 1 1 0 0 0);
     Done_Date := Some (timestamp_of 2024 1 5 0 0 0);
     Days := Some 5;
     Metric_Type := Some "Cycle Time" |}.

Definition scenario_K1_results : list MetricResult := [scenario_K1_row].

Definition scenario_K1_statuses : list string := ["DONE"; "IN PROGRESS"; "TO DO"].

(** The scenario with a row in the middle whose date does not parse, and
    statuses that need trimming and upper-casing. *)
Definition with_bad_date : DataFrame :=
  {| columns := standard_columns;
     values := [ [Str "K1"; Str "2024-01-01"; Str "To Do"; Str "In Progress"];
                 [Str "K9"; Str "not a date"; Str "Blocked"; Str "Review"];
                 [Str "K1"; Str "2024-01-05"; Str "in progress "; Str " done"] ] |}.

(** Keys that are blank strings, not missing cells. *)
Definition blank_keys : DataFrame :=
  {| columns := standard_columns;
     values := [ [Str ""; Str "2024-01-01"; Str "To Do"; Str "In Progress"];
                 [Str "   "; Str "2024-01-03"; Str "To Do"; Str "In Progress"] ] |}.

Definition blank_keys_results : list MetricResult :=
  [ {| Key := Str ""; In_Progress_Date := Some (timestamp_of 2024 1 1 0 0 0);
       Done_Date := None; Days := Some 10; Metric_Type := Some "Work Item Age" |};
    {| Key := Str "   "; In_Progress_Date := Some (timestamp_of 2024 1 3 0 0 0);
       Done_Date := None; Days := Some 8; Metric_Type := Some "Work Item Age" |} ].

(** A frame without a "Status [new]" column, its other headers in odd case. *)
Definition missing_status_new : DataFrame :=
  {| columns := ["KEY"; "date OF change"; "Status"];
     values := [ [Str "K1"; Str "2024-01-01"; Str "To Do"] ] |}.

(** A key closed three days before it was started. *)
Definition done_before_start : DataFrame :=
  {| columns := standard_columns;
     values := [ [Str "K4"; Str "2024-01-05"; Str "To Do"; Str "In Progress"];
                 [Str "K4"; Str "2024-01-02"; Str "To Do"; Str "Done"] ] |}.

(** A second clock, which knows one zone only. *)
Definition clock_utc_only (tz_name : string) : option Z :=
  if bool_decide (tz_name = "UTC") then Some (days_from_civil 2024 1 10) else None.

(** A key that is closed without ever having been started. *)
Definition done_only : DataFrame :=
  {| columns := standard_columns;
     values := [ [Str "K2"; Str "2024-01-05"; Str "To Do"; Str "Done"] ] |}.

Definition done_only_row : MetricResult :=
  {| Key := Str "K2"; In_Progress_Date := None;
     Done_Date := Some (timestamp_of 2024 1 5 0 0 0);
     Days := None; Metric_Type := Some "Cycle Time" |}.

(** A key started on 2024-01-08 and not closed; the clock reads 2024-01-10. *)
Definition started_only : DataFrame :=
  {| columns := standard_columns;
     values := [ [Str "K3"; Str "2024-01-08 10:30:00"; Str "To Do"; Str "In Progress"] ] |}.

Definition started_only_row : MetricResult :=
  {| Key := Str "K3"; In_Progress_Date := Some (timestamp_of 2024 1 8 10 30 0);
     Done_Date := None; Days := Some 3; Metric_Type := Some "Work Item Age" |}.

(** ** The sidebar *)

(** [s.split(sep)] for a one-character separator: every occurrence cuts,
    so the empty string gives one empty piece. *)
Fixpoint split_on (sep : ascii) (s : string) : list string :=
  match s with
  | EmptyString => [EmptyString]
  | String c s' =>
      if decide (c = sep) then EmptyString :: split_on sep s'
      else match split_on sep s' with
           | piece :: pieces => String c piece :: pieces
           | [] => [String c EmptyString]
           end
  end.

(** [set([s.strip().upper() for s in text.split(",") if s.strip()])] *)
Definition parse_aliases (text : string) : gset string :=
  list_to_set ((λ s, upper (strip s))
                 <$> filter (λ s, strip s ≠ EmptyString) (split_on ","%char text)).

(** Text within ASCII, on which [lower], [upper] and [strip] above are the
    Python methods exactly. *)
Fixpoint is_ascii (s : string) : bool :=
  match s with
  | EmptyString => true
  | String c s' => (N_of_ascii c <? 128)%N && is_ascii s'
  end.

Definition ascii_text (c : cell) : bool :=
  match c with Str s => is_ascii s | _ => true end.

(** The sidebar defaults. *)
Definition default_in_progress_text : string :=
  "IN PROGRESS,IN-PROGRESS,IN_PROGRESS,INPROGRESS".
Definition default_done_text : string := "DONE,CLOSED,RESOLVED".

(** The scenario with other old statuses, with untidy statuses, with its
    rows in another order and one of them twice, and with two more columns. *)
Definition scenario_K1_other_status : DataFrame :=
  {| columns := standard_columns;
     values := [ [Str "K1"; Str "2024-01-01"; Str "Backlog"; Str "IN PROGRESS"];
                 [Str "K1"; Str "2024-01-05"; NA; Str "DONE"] ] |}.

Definition scenario_K1_untidy : DataFrame :=
  {| columns := standard_columns;
     values := [ [Str "K1"; Str "2024-01-01"; Str " to do"; Str "In Progress  "];
                 [Str "K1"; Str "2024-01-05"; Str "in progress"; Str " done"] ] |}.

Definition scenario_K1_shuffled : DataFrame :=
  {| columns := standard_columns;
     values := [ [Str "K1"; Str "2024-01-05"; Str "In Progress"; Str "DONE"];
                 [Str "K1"; Str "2024-01-01"; Str "To Do"; Str "IN PROGRESS"];
                 [Str "K1"; Str "2024-01-05"; Str "In Progress"; Str "DONE"] ] |}.

Definition scenario_K1_wide : DataFrame :=
  {| columns := standard_columns ++ ["Summary"; "Assignee"];
     values := [ [Str "K1"; Str "2024-01-01"; Str "To Do"; Str "IN PROGRESS";
                  Str "Set up the board"; Str "ann"];
                 [Str "K1"; Str "2024-01-05"; Str "In Progress"; Str "DONE";
                  Str "Set up the board"; NA] ] |}.

(** Four keys: closed after a start, closed without a start, and two that
    are started only. *)
Definition board : DataFrame :=
  {| columns := standard_columns;
     values := [ [Str "K3"; Str "2024-01-08"; Str "To Do"; Str "In Progress"];
                 [Str "K2"; Str "2024-01-05"; Str "To Do"; Str "Done"];
                 [Str "B7"; Str "2024-01-09"; Str "To Do"; Str "In Progress"];
                 [Str "K1"; Str "2024-01-01"; Str "To Do"; Str "In Progress"];
                 [Str "K1"; Str "2024-01-05"; Str "In Progress"; Str "Done"] ] |}.

Definition board_results : list MetricResult :=
  [ scenario_K1_row;
    {| Key := Str "K2"; In_Progress_Date := None;
       Done_Date := Some (timestamp_of 2024 1 5 0 0 0);
       Days := None; Metric_Type := Some "Cycle Time" |};
    {| Key := Str "B7"; In_Progress_Date := Some (timestamp_of 2024 1 9 0 0 0);
       Done_Date := None; Days := Some 2; Metric_Type := Some "Work Item Age" |};
    {| Key := Str "K3"; In_Progress_Date := Some (timestamp_of 2024 1 8 0 0 0);
       Done_Date := None; Days := Some 3; Metric_Type := Some "Work Item Age" |} ].

(** The board two days earlier in its history. *)
Definition board_before : DataFrame :=
  {| columns := standard_columns;
     values := [ [Str "K3"; Str "2024-01-08"; Str "To Do"; Str "In Progress"];
                 [Str "K1"; Str "2024-01-05"; Str "In Progress"; Str "Done"] ] |}.

Definition board_before_K1 : MetricResult :=
  {| Key := Str "K1"; In_Progress_Date := None;
     Done_Date := Some (timestamp_of 2024 1 5 0 0 0);
     Days := None; Metric_Type := Some "Cycle Time" |}.

Definition board_before_K3 : MetricResult :=
  {| Key := Str "K3"; In_Progress_Date := Some (timestamp_of 2024 1 8 0 0 0);
     Done_Date := None; Days := Some 3; Metric_Type := Some "Work Item Age" |}.

(** ** The store: reading and writing the newest object *)

Lemma lookup_total_newest (H : heap) (c : DataFrame) : (H ++ [c]) !!! length H = c.
Proof.
  apply list_lookup_total_correct. rewrite lookup_app_r by lia.
  by rewrite Nat.sub_diag.
Qed.

Lemma alter_newest (f : DataFrame → DataFrame) (H : heap) (c : DataFrame) :
  alter f (length H) (H ++ [c]) = H ++ [f c].
Proof.
  rewrite alter_app_r_alt by lia. by rewrite Nat.sub_diag.
Qed.

Lemma column_index_run (H : heap) (c : DataFrame) (label : string) :
  column_index (length H) label (H ++ [c]) =
    (H ++ [c], match get_loc label (columns c) with
               | Some i => inr i
               | None => inl (NotOneColumn label)
               end).
Proof.
  unfold column_index, mbind, M_bind, deref. rewrite lookup_total_newest.
  by destruct (get_loc label (columns c)).
Qed.

Lemma apply_column_run (H : heap) (c : DataFrame) (label : string) (f : cell → cell) :
  apply_column (length H) label f (H ++ [c]) =
    match get_loc label (columns c) with
    | Some i =>
        (H ++ [ {| columns := columns c;
                   values := (λ row, set_cell i (f (cell_at i row)) row) <$> values c |} ],
         inr tt)
    | None => (H ++ [c], inl (NotOneColumn label))
    end.
Proof.
  unfold apply_column, mbind, M_bind. rewrite column_index_run.
  destruct (get_loc label (columns c)); [|done].
  unfold modify. by rewrite alter_newest.
Qed.

Lemma dropna_run (H : heap) (c : DataFrame) (a b : string) :
  dropna (length H) a b (H ++ [c]) =
    match get_loc a (columns c), get_loc b (columns c) with
    | Some i, Some j =>
        ((H ++ [c]) ++
           [ {| columns := columns c;
                values := filter (λ row, notna (cell_at i row) && notna (cell_at j row))
                            (values c) |} ],
         inr (length (H ++ [c])))
    | Some _, None => (H ++ [c], inl (NotOneColumn b))
    | None, _ => (H ++ [c], inl (NotOneColumn a))
    end.
Proof.
  unfold dropna, mbind, M_bind. rewrite column_index_run.
  destruct (get_loc a (columns c)); [|done].
  rewrite column_index_run. destruct (get_loc b (columns c)); [|done].
  unfold deref, alloc. by rewrite lookup_total_newest.
Qed.

Lemma records_run (H : heap) (c : DataFrame) :
  records (length H) (H ++ [c]) =
    (H ++ [c],
     match get_loc "Key" (columns c), get_loc "Date of change" (columns c),
           get_loc "Status" (columns c), get_loc "Status [new]" (columns c) with
     | Some k, Some d, Some s, Some n =>
         inr ((λ row, {| Event.Key := cell_at k row; Event.Date_of_change := cell_at d row;
                         Event.Status := cell_at s row; Event.Status_new := cell_at n row |})
                <$> values c)
     | None, _, _, _ => inl (NotOneColumn "Key")
     | Some _, None, _, _ => inl (NotOneColumn "Date of change")
     | Some _, Some _, None, _ => inl (NotOneColumn "Status")
     | Some _, Some _, Some _, None => inl (NotOneColumn "Status [new]")
     end).
Proof.
  unfold records, mbind, M_bind. rewrite column_index_run.
  destruct (get_loc "Key" (columns c)); [|done].
  rewrite column_index_run. destruct (get_loc "Date of change" (columns c)); [|done].
  rewrite column_index_run. destruct (get_loc "Status" (columns c)); [|done].
  rewrite column_index_run. destruct (get_loc "Status [new]" (columns c)); [|done].
  unfold deref. by rewrite lookup_total_newest.
Qed.

(** ** Cells of a row *)

Lemma cell_at_set_cell_eq (i : nat) (v : cell) (row : list cell) :
  cell_at i (set_cell i v row) = v.
Proof.
  unfold cell_at. revert row. induction i as [|i IH]; intros [|c row]; simpl; auto.
Qed.

Lemma cell_at_set_cell_ne (i j : nat) (v : cell) (row : list cell) :
  i ≠ j → cell_at j (set_cell i v row) = cell_at j row.
Proof.
  unfold cell_at. revert j row.
  induction i as [|i IH]; intros [|j] [|c row] Hne; simpl; try done.
  all: try (rewrite IH by lia); try by destruct j.
Qed.

Lemma get_loc_Some (label : string) (cs : list string) (i : nat) :
  get_loc label cs = Some i → cs !! i = Some label.
Proof.
  unfold get_loc. intros Hloc.
  destruct (filter _ _) as [|i' [|]] eqn:Hf; simplify_eq.
  assert (i ∈ filter (λ i, cs !! i = Some label) (seq 0 (length cs))) as Hin.
  { rewrite Hf. apply list_elem_of_singleton. done. }
  by apply list_elem_of_filter in Hin as [? _].
Qed.

Lemma get_loc_ne (a b : string) (cs : list string) (i j : nat) :
  a ≠ b → get_loc a cs = Some i → get_loc b cs = Some j → i ≠ j.
Proof.
  intros Hab Hi%get_loc_Some Hj%get_loc_Some ->. congruence.
Qed.


(** ** Lists: distinct values, sorting, minima *)

Lemma elem_of_unique `{EqDecision A} (l : list A) (x : A) : x ∈ unique l ↔ x ∈ l.
Proof.
  induction l as [|a l IH]; simpl; [done|].
  rewrite !elem_of_cons, list_elem_of_filter, IH.
  destruct (decide (x = a)); naive_solver.
Qed.

Lemma NoDup_unique `{EqDecision A} (l : list A) : NoDup (unique l).
Proof.
  induction l as [|a l IH]; simpl; [constructor|].
  apply NoDup_cons. split; [|by apply NoDup_filter].
  rewrite list_elem_of_filter. naive_solver.
Qed.

Lemma elem_of_merge_sort {A} (R : relation A) `{∀ x y, Decision (R x y)}
    (l : list A) (x : A) :
  x ∈ merge_sort R l ↔ x ∈ l.
Proof. by rewrite merge_sort_Permutation. Qed.

Lemma foldl_ts_min (l : list cell) (acc : option Timestamp) :
  match foldl ts_min acc l with
  | None => acc = None ∧ ∀ t, Ts t ∉ l
  | Some m =>
      (acc = Some m ∨ Ts m ∈ l)
      ∧ (∀ a, acc = Some a → m ≤ a)
      ∧ ∀ t, Ts t ∈ l → m ≤ t
  end.
Proof.
  revert acc. induction l as [|c l IH]; intros acc; simpl.
  - destruct acc as [a|]; [|split; [done|intros t ?%elem_of_nil; done]].
    split_and!; [by left|intros; simplify_eq; lia|intros t ?%elem_of_nil; done].
  - specialize (IH (ts_min acc c)).
    destruct (foldl ts_min (ts_min acc c) l) as [m|].
    + destruct IH as (Hin & Hacc & Hl).
      destruct c as [|x|x|t], acc as [a|]; simpl in *;
        try specialize (Hacc _ eq_refl);
        setoid_rewrite elem_of_cons;
        try (destruct (Z.min_spec a t) as [[? Hmin]|[? Hmin]]; rewrite Hmin in *);
        naive_solver lia.
    + destruct IH as (Hacc & Hl). split.
      * by destruct c, acc.
      * intros t [<-|?]%elem_of_cons; [by destruct acc|by eapply Hl].
Qed.

Lemma series_min_Some (l : list cell) (m : Timestamp) :
  series_min l = Some m → Ts m ∈ l ∧ ∀ t, Ts t ∈ l → m ≤ t.
Proof.
  unfold series_min. intros Hm. pose proof (foldl_ts_min l None) as Hf.
  rewrite Hm in Hf. naive_solver.
Qed.

Lemma series_min_None (l : list cell) : series_min l = None → ∀ t, Ts t ∉ l.
Proof.
  unfold series_min. intros Hm. pose proof (foldl_ts_min l None) as Hf.
  rewrite Hm in Hf. naive_solver.
Qed.

Lemma NoDup_omap_as_str (l : list cell) : NoDup l → NoDup (omap as_str l).
Proof.
  induction 1 as [|c l Hc _ IH]; simpl; [constructor|].
  destruct c as [|x| |]; simpl; try done.
  apply NoDup_cons. split; [|done].
  intros (c & Hin & Hs)%list_elem_of_omap. destruct c; by simplify_eq/=.
Qed.

Lemma filter_ext_elem_of {A} (P Q : A → Prop)
    `{!∀ x, Decision (P x), !∀ x, Decision (Q x)} (l : list A) :
  (∀ x, x ∈ l → P x ↔ Q x) → filter P l = filter Q l.
Proof.
  induction l as [|a l IH]; intros HPQ; [done|].
  rewrite !filter_cons, IH by (intros; apply HPQ; by apply elem_of_cons; right).
  pose proof (HPQ a (proj2 (elem_of_cons _ _ _) (or_introl eq_refl))).
  repeat case_decide; naive_solver.
Qed.

(** ** Column resolution *)

Lemma cols_snoc (columns : list string) (c : string) :
  cols (columns ++ [c]) = <[lower c := c]> (cols columns).
Proof. unfold cols. by rewrite foldl_snoc. Qed.

Lemma cols_lookup_None (columns : list string) (n : string) :
  cols columns !! n = None ↔ ∀ c, c ∈ columns → lower c ≠ n.
Proof.
  induction columns as [|c columns IH] using rev_ind.
  - split; [by intros _ c ?%elem_of_nil|done].
  - rewrite cols_snoc. setoid_rewrite elem_of_app.
    setoid_rewrite list_elem_of_singleton.
    destruct (decide (lower c = n)) as [<-|Hne].
    + rewrite lookup_insert_eq. naive_solver.
    + rewrite lookup_insert_ne by done. rewrite IH. naive_solver.
Qed.

Lemma cols_lookup_Some (columns : list string) (n c : string) :
  cols columns !! n = Some c → c ∈ columns ∧ lower c = n.
Proof.
  induction columns as [|c' columns IH] using rev_ind; [done|].
  rewrite cols_snoc. setoid_rewrite elem_of_app.
  setoid_rewrite list_elem_of_singleton.
  destruct (decide (lower c' = n)) as [<-|Hne].
  - rewrite lookup_insert_eq. naive_solver.
  - rewrite lookup_insert_ne by done. naive_solver.
Qed.

Lemma required_lower (n : string) : n ∈ required → lower n = n.
Proof.
  unfold required. rewrite !elem_of_cons, elem_of_nil.
  intros [->|[->|[->|[->|[]]]]]; reflexivity.
Qed.

(** The missing names are the required names that no column matches when
    case is ignored. *)
Lemma missing_unmatched (columns : list string) :
  missing columns
  = filter (λ n, Forall (λ c, lower c ≠ lower n) columns) required.
Proof.
  unfold missing. apply filter_ext_elem_of. intros n Hn.
  rewrite cols_lookup_None, Forall_forall, (required_lower n Hn). done.
Qed.

(** ** The per-key tables and their join *)

Lemma lookup_groupby_min (rows : list Event.t) (k : cell) :
  (∀ e, e ∈ rows → notna (Event.Key e)) →
  lookup_key k (groupby_min rows)
  = series_min (Event.Date_of_change <$> filter (λ e, Event.Key e = k) rows).
Proof.
  intros Hkeys. unfold lookup_key, groupby_min.
  destruct (list_find _ _) as [[i [k' v]]|] eqn:Hfind.
  - apply list_find_Some in Hfind as (Hi%list_elem_of_lookup_2 & Hk & _).
    apply list_elem_of_fmap in Hi as (k'' & ? & _). simpl in Hk. by simplify_eq.
  - rewrite list_find_None, Forall_forall in Hfind.
    assert (filter (λ e, Event.Key e = k) rows = []) as ->; [|done].
    apply elem_of_nil_inv. intros e [Hk He]%list_elem_of_filter.
    apply (Hfind (k, series_min (Event.Date_of_change <$>
                                   filter (λ e, Event.Key e = k) rows))); [|done].
    apply list_elem_of_fmap. exists k. split; [done|].
    apply elem_of_merge_sort, elem_of_unique, list_elem_of_filter.
    split; [rewrite <- Hk; by apply Hkeys|].
    apply list_elem_of_fmap. by exists e.
Qed.

Lemma elem_of_groupby_min_keys (rows : list Event.t) (k : cell) :
  k ∈ (groupby_min rows).*1 → ∃ e, e ∈ rows ∧ Event.Key e = k.
Proof.
  unfold groupby_min. rewrite <- list_fmap_compose.
  intros (k' & -> & Hk)%list_elem_of_fmap. simpl.
  apply elem_of_merge_sort, elem_of_unique, list_elem_of_filter in Hk as [_ Hk].
  apply list_elem_of_fmap in Hk as (e & -> & He). eauto.
Qed.

Lemma groupby_min_fst (rows : list Event.t) :
  (groupby_min rows).*1
  = merge_sort cell_le (unique (filter (λ k, notna k) (Event.Key <$> rows))).
Proof.
  unfold groupby_min. rewrite <- list_fmap_compose.
  by rewrite (list_fmap_ext _ id), list_fmap_id.
Qed.

(** [groupby] gives each key one row. *)
Lemma NoDup_groupby_min (rows : list Event.t) : NoDup (groupby_min rows).*1.
Proof. rewrite groupby_min_fst, merge_sort_Permutation. apply NoDup_unique. Qed.

Lemma NoDup_fst_agree {A B} (l : list (A * B)) (x : A) (y1 y2 : B) :
  NoDup l.*1 → (x, y1) ∈ l → (x, y2) ∈ l → y1 = y2.
Proof.
  induction l as [|[a b] l IH]; simpl; intros Hnd H1 H2.
  { by apply elem_of_nil in H1. }
  apply NoDup_cons in Hnd as [Hnotin Hnd].
  apply elem_of_cons in H1 as [H1|H1], H2 as [H2|H2]; simplify_eq; [done| | |by eauto].
  - destruct Hnotin. apply list_elem_of_fmap. by exists (a, y2).
  - destruct Hnotin. apply list_elem_of_fmap. by exists (a, y1).
Qed.

Lemma lookup_key_elem (tbl : list (cell * option Timestamp)) (k : cell)
    (v : option Timestamp) :
  NoDup tbl.*1 → (k, v) ∈ tbl → lookup_key k tbl = v.
Proof.
  intros Hnd Hin. unfold lookup_key.
  destruct (list_find _ _) as [[i [k' v']]|] eqn:Hfind.
  - apply list_find_Some in Hfind as (Hi%list_elem_of_lookup_2 & Hk & _).
    simpl in Hk. subst k'. by eapply NoDup_fst_agree.
  - rewrite list_find_None, Forall_forall in Hfind. by destruct (Hfind _ Hin).
Qed.

Lemma lookup_key_absent (tbl : list (cell * option Timestamp)) (k : cell) :
  filter (λ p, p.1 = k) tbl = [] → lookup_key k tbl = None.
Proof.
  intros Hnil. unfold lookup_key.
  destruct (list_find _ _) as [[i [k' v']]|] eqn:Hfind; [|done].
  apply list_find_Some in Hfind as (Hi%list_elem_of_lookup_2 & Hk & _).
  by destruct (filter_nil_not_elem_of _ _ _ Hnil Hk).
Qed.

Lemma filter_fst_NoDup {A B} `{EqDecision A} (l : list (A * B)) (k : A) :
  NoDup l.*1 →
  filter (λ p, p.1 = k) l = [] ∨ ∃ p, filter (λ p, p.1 = k) l = [p].
Proof.
  induction l as [|[a b] l IH]; simpl; intros Hnd; [by left|].
  apply NoDup_cons in Hnd as [Hnotin Hnd]. rewrite filter_cons. simpl.
  destruct (decide (a = k)) as [->|Hne]; [|by apply IH].
  right. exists (k, b). f_equal. apply elem_of_nil_inv.
  intros [a' b'] [Ha' Hin]%list_elem_of_filter. simpl in Ha'. subst a'.
  destruct Hnotin. apply list_elem_of_fmap. by exists (k, b').
Qed.

Lemma elem_of_merge_outer (in_prog done : list (cell * option Timestamp))
    (r : MetricResult) :
  NoDup in_prog.*1 → NoDup done.*1 →
  r ∈ merge_outer in_prog done →
    (Key r ∈ in_prog.*1 ∨ Key r ∈ done.*1)
    ∧ In_Progress_Date r = lookup_key (Key r) in_prog
    ∧ Done_Date r = lookup_key (Key r) done.
Proof.
  intros Hl Hr. unfold merge_outer.
  intros (k & Hrow & Hk)%list_elem_of_bind.
  apply elem_of_merge_sort, elem_of_unique, elem_of_app in Hk.
  assert (∀ tbl p, NoDup tbl.*1 → p ∈ filter (λ p, p.1 = k) tbl →
                   lookup_key k tbl = p.2) as Hlook.
  { intros tbl [k' v] Hnd [Hk' Hin]%list_elem_of_filter. simpl in *. subst k'.
    by apply lookup_key_elem. }
  destruct (filter (λ p, p.1 = k) in_prog) as [|p0 left] eqn:Hleft.
  - apply list_elem_of_fmap in Hrow as (q & -> & Hq). simpl.
    split_and!; [done|by rewrite lookup_key_absent|by rewrite (Hlook done q)].
  - destruct (filter (λ q, q.1 = k) done) as [|q0 right] eqn:Hright.
    + apply list_elem_of_fmap in Hrow as (p & -> & Hp). simpl.
      split_and!; [done| |by rewrite lookup_key_absent].
      rewrite (Hlook in_prog p); [done..|]. by rewrite Hleft.
    + apply list_elem_of_bind in Hrow as (p & Hrow & Hp).
      apply list_elem_of_bind in Hrow as (q & Hrow & Hq).
      apply list_elem_of_singleton in Hrow as ->. simpl.
      split_and!; [done| |].
      * rewrite (Hlook in_prog p); [done..|]. by rewrite Hleft.
      * rewrite (Hlook done q); [done..|]. by rewrite Hright.
Qed.

Lemma elem_of_merge_outer_keys (in_prog done : list (cell * option Timestamp))
    (k : cell) :
  k ∈ Key <$> merge_outer in_prog done ↔ k ∈ in_prog.*1 ∨ k ∈ done.*1.
Proof.
  unfold merge_outer. rewrite list_elem_of_fmap. setoid_rewrite list_elem_of_bind.
  split.
  - intros (r & -> & k' & Hrow & Hk').
    apply elem_of_merge_sort, elem_of_unique, elem_of_app in Hk'.
    assert (Key r = k') as ->; [|done].
    destruct (filter (λ p, p.1 = k') in_prog) as [|p0 left].
    { by apply list_elem_of_fmap in Hrow as (q & -> & _). }
    destruct (filter (λ q, q.1 = k') done) as [|q0 right].
    { by apply list_elem_of_fmap in Hrow as (p & -> & _). }
    apply list_elem_of_bind in Hrow as (p & Hrow & _).
    apply list_elem_of_bind in Hrow as (q & Hrow & _).
    by apply list_elem_of_singleton in Hrow as ->.
  - intros Hk.
    assert (k ∈ merge_sort cell_le (unique (in_prog.*1 ++ done.*1))) as Hkeys.
    { by apply elem_of_merge_sort, elem_of_unique, elem_of_app. }
    assert (filter (λ p, p.1 = k) in_prog ≠ [] ∨ filter (λ q, q.1 = k) done ≠ [])
      as Hsome.
    { destruct Hk as [([k' v] & -> & Hin)%list_elem_of_fmap
                     |([k' v] & -> & Hin)%list_elem_of_fmap]; [left|right];
        intros Hnil; by eapply (filter_nil_not_elem_of _ _ (k', v) Hnil). }
    destruct (filter (λ p, p.1 = k) in_prog) as [|p0 left] eqn:Hleft.
    + destruct (filter (λ q, q.1 = k) done) as [|q0 right] eqn:Hright.
      { by destruct Hsome. }
      eexists. split; [|exists k; split; [|done]].
      2: { rewrite Hleft, Hright. apply list_elem_of_fmap_2, list_elem_of_here. }
      done.
    + destruct (filter (λ q, q.1 = k) done) as [|q0 right] eqn:Hright.
      * eexists. split; [|exists k; split; [|done]].
        2: { rewrite Hleft, Hright. apply list_elem_of_fmap_2, list_elem_of_here. }
        done.
      * eexists. split; [|exists k; split; [|done]].
        2: { rewrite Hleft, Hright. apply list_elem_of_bind. exists p0.
             split; [|apply list_elem_of_here].
             apply list_elem_of_bind. exists q0.
             split; [|apply list_elem_of_here]. apply list_elem_of_here. }
        done.
Qed.

Lemma NoDup_bind_keys {A} (f : cell → list A) (key : A → cell) (ks : list cell) :
  NoDup ks →
  (∀ k, key <$> f k = [] ∨ key <$> f k = [k]) →
  NoDup (key <$> (ks ≫= f)).
Proof.
  intros Hks Hf. induction Hks as [|k ks Hk Hks IH]; simpl; [constructor|].
  rewrite fmap_app. apply NoDup_app. split_and!; [|intros x Hx Hx'|done].
  - destruct (Hf k) as [-> | ->]; [constructor|apply NoDup_singleton].
  - assert (x = k) as ->.
    { destruct (Hf k) as [Hnil|Hone]; rewrite ?Hnil, ?Hone in Hx;
        [by apply elem_of_nil in Hx|by apply list_elem_of_singleton in Hx]. }
    destruct Hk. apply list_elem_of_fmap in Hx' as (a & -> & Ha).
    apply list_elem_of_bind in Ha as (k' & Ha & Hk').
    destruct (Hf k') as [Hnil|Hone].
    + apply (list_elem_of_fmap_2 key) in Ha. rewrite Hnil in Ha.
      by apply elem_of_nil in Ha.
    + apply (list_elem_of_fmap_2 key) in Ha. rewrite Hone in Ha.
      by apply list_elem_of_singleton in Ha as ->.
Qed.

(** A join of two tables that have one row per key has one row per key. *)
Lemma NoDup_merge_outer (in_prog done : list (cell * option Timestamp)) :
  NoDup in_prog.*1 → NoDup done.*1 → NoDup (Key <$> merge_outer in_prog done).
Proof.
  intros Hl Hr. unfold merge_outer. apply NoDup_bind_keys.
  { rewrite merge_sort_Permutation. apply NoDup_unique. }
  intros k.
  destruct (filter_fst_NoDup in_prog k Hl) as [-> |[p ->]],
    (filter_fst_NoDup done k Hr) as [-> |[q ->]]; simpl; auto.
Qed.


(** ** What a call returns and what it leaves in the store *)

Section run.

Context (to_datetime : cell → option (option Timestamp)).
Context (today_in : string → option Z).

Lemma view_normalize_row (k d s n : nat) (row : list cell) :
  s ≠ n → s ≠ d → s ≠ k → n ≠ d → n ≠ k → d ≠ k →
  {| Event.Key := cell_at k (normalize_row to_datetime d s n row);
     Event.Date_of_change := cell_at d (normalize_row to_datetime d s n row);
     Event.Status := cell_at s (normalize_row to_datetime d s n row);
     Event.Status_new := cell_at n (normalize_row to_datetime d s n row) |}
  = event_of to_datetime k d s n row.
Proof.
  intros. unfold normalize_row, event_of. cbv zeta.
  rewrite !cell_at_set_cell_eq.
  repeat (rewrite ?cell_at_set_cell_eq; rewrite ?cell_at_set_cell_ne by done).
  done.
Qed.

Lemma keep_normalize_row (k d s n : nat) (row : list cell) :
  s ≠ n → s ≠ d → s ≠ k → n ≠ d → n ≠ k → d ≠ k →
  keep_row k d (normalize_row to_datetime d s n row)
  = retained (event_of to_datetime k d s n row).
Proof.
  intros. rewrite <- (view_normalize_row k d s n row) by done. done.
Qed.

Lemma view_working_frame (k d s n : nat) (rows : list (list cell)) :
  s ≠ n → s ≠ d → s ≠ k → n ≠ d → n ≠ k → d ≠ k →
  (λ row, {| Event.Key := cell_at k row; Event.Date_of_change := cell_at d row;
             Event.Status := cell_at s row; Event.Status_new := cell_at n row |})
    <$> filter (λ row, keep_row k d row) (normalize_row to_datetime d s n <$> rows)
  = filter (λ e, retained e) (event_of to_datetime k d s n <$> rows).
Proof.
  intros. induction rows as [|row rows IH]; [done|].
  rewrite !fmap_cons, !filter_cons, <- keep_normalize_row by done.
  destruct (decide _); [|done].
  by rewrite fmap_cons, view_normalize_row, IH.
Qed.

Lemma locate_inr (cs : list string) (k d s n : nat) :
  locate cs = inr (k, d, s, n) →
  get_loc "Key" cs = Some k ∧ get_loc "Date of change" cs = Some d ∧
  get_loc "Status" cs = Some s ∧ get_loc "Status [new]" cs = Some n.
Proof.
  unfold locate. intros Hloc. repeat case_match; simplify_eq. done.
Qed.

Lemma locate_distinct (cs : list string) (k d s n : nat) :
  locate cs = inr (k, d, s, n) →
  s ≠ n ∧ s ≠ d ∧ s ≠ k ∧ n ≠ d ∧ n ≠ k ∧ d ≠ k.
Proof.
  intros (Hk & Hd & Hs & Hn)%locate_inr.
  repeat split; eapply get_loc_ne; try eassumption; done.
Qed.

Local Ltac fail_leaf :=
  eexists; split;
  [ repeat match goal with H := _ ++ _ |- _ => subst H end;
    rewrite <- ?app_assoc; reflexivity
  | split; [done | intros ???? _ (?&?&?&?)%locate_inr; congruence] ].

(** One call, symbolically: the objects it adds to the store and the
    value or exception it ends with. *)
Lemma compute_metrics_run (df_raw : ref) (tz_name : string)
    (in_prog_set done_set : gset string) (h : heap) :
  let raw := h !!! df_raw in
  let cs := columns (rename (mapper (columns raw)) raw) in
  ∃ new : list DataFrame,
    compute_metrics to_datetime today_in df_raw tz_name in_prog_set done_set h
      = (h ++ new, outcome to_datetime today_in raw tz_name in_prog_set done_set)
    ∧ (missing (columns raw) ≠ [] → new = [])
    ∧ ∀ k d s n, missing (columns raw) = [] → locate cs = inr (k, d, s, n) →
        new = [ rename (mapper (columns raw)) raw;
                {| columns := cs;
                   values := normalize_row to_datetime d s n <$> values raw |};
                {| columns := cs;
                   values := filter (λ row, keep_row k d row)
                               (normalize_row to_datetime d s n <$> values raw) |} ].
Proof.
  intros raw cs. unfold compute_metrics, outcome.
  unfold mbind at 1, M_bind at 1, deref at 1. fold raw. fold cs.
  destruct (decide (missing (columns raw) = [])) as [Hm|Hm].
  2: { exists []. rewrite app_nil_r. done. }
  unfold mbind at 1, M_bind at 1, alloc at 1.
  unfold mbind at 1, M_bind at 1, deref at 1. rewrite lookup_total_newest.
  set (d0 := rename _ _). set (H0 := h ++ [d0]).
  unfold mbind at 1, M_bind at 1, alloc at 1.
  unfold locate at 1.
  unfold mbind at 1, M_bind at 1. rewrite apply_column_run.
  change (columns (copy d0)) with cs. change (values (copy d0)) with (values raw).
  destruct (get_loc "Status" cs) as [s|] eqn:Hs; [|fail_leaf].
  cbv beta iota. unfold mbind at 1, M_bind at 1.
  rewrite apply_column_run. cbn [columns values].
  destruct (get_loc "Status [new]" cs) as [n|] eqn:Hn; [|fail_leaf].
  cbv beta iota. unfold mbind at 1, M_bind at 1.
  rewrite apply_column_run. cbn [columns values].
  destruct (get_loc "Date of change" cs) as [d|] eqn:Hd; [|fail_leaf].
  cbv beta iota. unfold mbind at 1, M_bind at 1.
  rewrite dropna_run. cbn [columns values]. rewrite Hd.
  destruct (get_loc "Key" cs) as [k|] eqn:Hk; [|fail_leaf].
  cbv beta iota. unfold mbind at 1, M_bind at 1.
  rewrite records_run. cbn [columns values]. rewrite Hk, Hd, Hs, Hn.
  assert (locate cs = inr (k, d, s, n)) as Hloc.
  { unfold locate. by rewrite Hs, Hn, Hd, Hk. }
  destruct (locate_distinct _ _ _ _ _ Hloc) as (? & ? & ? & ? & ? & ?).
  rewrite <- !list_fmap_compose.
  change (_ ∘ _ ∘ _) with (normalize_row to_datetime d s n).
  change (λ row, notna (cell_at k row) && notna (cell_at d row))
    with (λ row, keep_row k d row).
  rewrite view_working_frame by done.
  unfold working_set.
  change (columns (rename (mapper (columns raw)) raw)) with cs.
  rewrite Hloc.
  eexists. split.
  - unfold mbind, M_bind, now_date, mret, M_ret, raise. subst H0.
    rewrite <- !app_assoc.
    destruct (today_in tz_name); reflexivity.
  - split; [done|]. intros ???? _ ?. by simplify_eq.
Qed.

Lemma compute_metrics_outcome (df_raw : ref) (tz_name : string)
    (in_prog_set done_set : gset string) (h : heap) :
  (compute_metrics to_datetime today_in df_raw tz_name in_prog_set done_set h).2
  = outcome to_datetime today_in (h !!! df_raw) tz_name in_prog_set done_set.
Proof.
  destruct (compute_metrics_run df_raw tz_name in_prog_set done_set h)
    as (new & -> & _). done.
Qed.

(** A call returns as soon as the four names resolve, each to one column,
    and pytz knows the zone. *)
Lemma compute_metrics_returns (df_raw : ref) (tz_name : string)
    (in_prog_set done_set : gset string) (h : heap)
    (positions : nat * nat * nat * nat) (today_local : Z) :
  missing (columns (h !!! df_raw)) = [] →
  locate (columns (rename (mapper (columns (h !!! df_raw))) (h !!! df_raw)))
    = inr positions →
  today_in tz_name = Some today_local →
  ∃ res,
    (compute_metrics to_datetime today_in df_raw tz_name in_prog_set done_set h).2
      = inr res.
Proof.
  intros Hm Hloc Htoday. rewrite compute_metrics_outcome. unfold outcome.
  rewrite Hm, Hloc, Htoday. rewrite decide_True by done. eauto.
Qed.

Lemma working_set_retained (raw : DataFrame) (e : Event.t) :
  e ∈ working_set to_datetime raw →
  notna (Event.Key e) ∧ ∃ t, Event.Date_of_change e = Ts t.
Proof.
  unfold working_set. destruct (locate _) as [|[[[k d] s] n]].
  { by intros ?%elem_of_nil. }
  intros [Hret He]%list_elem_of_filter.
  apply list_elem_of_fmap in He as (row & -> & _).
  unfold retained in Hret. apply andb_True in Hret as [Hk Hd]. split; [done|].
  simpl in *. unfold coerce_datetime in *.
  destruct (to_datetime (cell_at d row)) as [[t|]|]; [by exists t|done..].
Qed.

(** A row of a returned table: where its fields come from. *)
Lemma result_row (df_raw : ref) (tz_name : string) (in_prog_set done_set : gset string)
    (h : heap) (results : list MetricResult) (statuses : list string)
    (r : MetricResult) :
  (compute_metrics to_datetime today_in df_raw tz_name in_prog_set done_set h).2
    = inr (results, statuses) →
  r ∈ results →
  let rows := working_set to_datetime (h !!! df_raw) in
  let first (aliases : gset string) :=
    series_min (Event.Date_of_change <$>
                  filter (λ e, Event.Key e = Key r)
                    (filter (λ e, isin aliases (Event.Status_new e)) rows)) in
  ∃ today_local,
    today_in tz_name = Some today_local
    ∧ In_Progress_Date r = first in_prog_set
    ∧ Done_Date r = first done_set
    ∧ Days r = row_days today_local r
    ∧ Metric_Type r = row_type r
    ∧ ∃ e, e ∈ rows ∧ Event.Key e = Key r
           ∧ (isin in_prog_set (Event.Status_new e) ∨ isin done_set (Event.Status_new e)).
Proof.
  intros Hout Hr rows first.
  rewrite compute_metrics_outcome in Hout. unfold outcome in Hout.
  case_decide; [|done]. destruct (locate _); [done|].
  destruct (today_in tz_name) as [today_local|]; [|done].
  cbv zeta in Hout. fold rows in Hout. simplify_eq.
  exists today_local. split; [done|].
  apply elem_of_merge_sort in Hr.
  apply list_elem_of_fmap in Hr as (r1 & -> & Hr).
  apply list_elem_of_fmap in Hr as (r0 & -> & Hr).
  apply elem_of_merge_outer in Hr as (Hkey & Hip & Hdn);
    [|apply NoDup_groupby_min..].
  assert (∀ aliases e,
    e ∈ filter (λ e, isin aliases (Event.Status_new e)) rows → notna (Event.Key e)).
  { intros aliases e [_ He]%list_elem_of_filter.
    by apply working_set_retained in He as [? _]. }
  rewrite lookup_groupby_min in Hip, Hdn by eauto.
  split_and!; [done..|].
  destruct Hkey as [Hkey|Hkey];
    apply elem_of_groupby_min_keys in Hkey as (e & [? ?]%list_elem_of_filter & ?);
    exists e; auto.
Qed.

End run.

(** ** Properties of the result table *)

Section results.

Context (to_datetime : cell → option (option Timestamp)).
Context (today_in : string → option Z).

Lemma series_min_is_Some (l : list cell) (t : Timestamp) :
  Ts t ∈ l → is_Some (series_min l).
Proof.
  intros Hin. destruct (series_min l) eqn:Hm; [by eexists|].
  by destruct (series_min_None l Hm t).
Qed.

Lemma first_date_is_Some (raw : DataFrame) (aliases : gset string) (e : Event.t) :
  e ∈ working_set to_datetime raw →
  isin aliases (Event.Status_new e) →
  is_Some (series_min (Event.Date_of_change <$>
             filter (λ e', Event.Key e' = Event.Key e)
               (filter (λ e', isin aliases (Event.Status_new e'))
                  (working_set to_datetime raw)))).
Proof.
  intros He Hin. destruct (working_set_retained _ _ _ He) as (_ & t & Ht).
  apply (series_min_is_Some _ t). rewrite <- Ht.
  apply list_elem_of_fmap_2. by rewrite !list_elem_of_filter.
Qed.

Lemma result_row_date_present (df_raw : ref) (tz_name : string)
    (in_prog_set done_set : gset string) (h : heap)
    (results : list MetricResult) (statuses : list string) (r : MetricResult) :
  (compute_metrics to_datetime today_in df_raw tz_name in_prog_set done_set h).2
    = inr (results, statuses) →
  r ∈ results →
  is_Some (In_Progress_Date r) ∨ is_Some (Done_Date r).
Proof.
  intros Hrun Hr.
  destruct (result_row _ _ _ _ _ _ _ _ _ _ Hrun Hr)
    as (today & _ & Hip & Hdn & _ & _ & e & He & Hk & Hin).
  destruct Hin as [Hin|Hin]; [left; rewrite Hip|right; rewrite Hdn];
    rewrite <- Hk; by apply first_date_is_Some.
Qed.

(** C10: every row of the result table has at least one of its two dates,
    and so its metric type is never missing. *)
Theorem result_row_has_a_date (df_raw : ref) (tz_name : string)
    (in_prog_set done_set : gset string) (h : heap)
    (results : list MetricResult) (statuses : list string) (r : MetricResult) :
  (compute_metrics to_datetime today_in df_raw tz_name in_prog_set done_set h).2
    = inr (results, statuses) →
  r ∈ results →
  (is_Some (In_Progress_Date r) ∨ is_Some (Done_Date r)) ∧ is_Some (Metric_Type r).
Proof.
  intros Hrun Hr.
  pose proof (result_row_date_present _ _ _ _ _ _ _ _ Hrun Hr) as Hdate.
  destruct (result_row _ _ _ _ _ _ _ _ _ _ Hrun Hr)
    as (today & _ & _ & _ & _ & Hty & _).
  split; [done|]. rewrite Hty. unfold row_type.
  destruct Hdate as [[t Ht]|[t Ht]]; rewrite Ht; [|done].
  by destruct (Done_Date r).
Qed.

(** C1, as the routine has it: every row of the result table carries one
    of the two metric types and at least one date; the type is
    "Cycle Time" exactly when the done date is present and "Work Item Age"
    exactly when only the in-progress date is; a row with a done date and
    no in-progress date is a "Cycle Time" row without a day count. *)
Theorem metric_type_classification (df_raw : ref) (tz_name : string)
    (in_prog_set done_set : gset string) (h : heap)
    (results : list MetricResult) (statuses : list string) (r : MetricResult) :
  (compute_metrics to_datetime today_in df_raw tz_name in_prog_set done_set h).2
    = inr (results, statuses) →
  r ∈ results →
  (Metric_Type r = Some "Cycle Time" ∨ Metric_Type r = Some "Work Item Age")
  ∧ ¬ (In_Progress_Date r = None ∧ Done_Date r = None)
  ∧ (Metric_Type r = Some "Cycle Time" ↔ is_Some (Done_Date r))
  ∧ (Metric_Type r = Some "Work Item Age"
     ↔ Done_Date r = None ∧ is_Some (In_Progress_Date r))
  ∧ (In_Progress_Date r = None →
     Metric_Type r = Some "Cycle Time" ∧ Days r = None).
Proof.
  intros Hrun Hr.
  pose proof (result_row_date_present _ _ _ _ _ _ _ _ Hrun Hr) as Hdate.
  destruct (result_row _ _ _ _ _ _ _ _ _ _ Hrun Hr)
    as (today & _ & _ & _ & Hdays & Hty & _).
  rewrite Hty, Hdays. unfold row_type, row_days.
destruct (In_Progress_Date r) as [ip|], (Done_Date r) as [dn|].
- split_and!; [by left|by intros [? _]|done|split; [done|by intros [? _]]|done].
- split_and!; [by right|by intros [? _]|split; [done|by intros [? ?]]|done|done].
- split_and!; [by left|by intros [_ ?]|done|split; [done|by intros [? _]]|done].
- by destruct Hdate as [[? ?]|[? ?]].
Qed.

(** C3: the day count of a row of the result table. *)
Theorem days_of_result_row (df_raw : ref) (tz_name : string)
    (in_prog_set done_set : gset string) (h : heap)
    (results : list MetricResult) (statuses : list string) (r : MetricResult) :
  (compute_metrics to_datetime today_in df_raw tz_name in_prog_set done_set h).2
    = inr (results, statuses) →
  r ∈ results →
  ∃ today_local,
    today_in tz_name = Some today_local
    ∧ match In_Progress_Date r, Done_Date r with
      | Some ip, Some dn =>
          Days r = Some (date dn - date ip + 1)
          ∧ (date dn = date ip → Days r = Some 1)
      | Some ip, None => Days r = Some (today_local - date ip + 1)
      | None, _ => Days r = None
      end.
Proof.
  intros Hrun Hr.
  destruct (result_row _ _ _ _ _ _ _ _ _ _ Hrun Hr)
    as (today & Htoday & _ & _ & Hdays & _).
  exists today. split; [done|]. rewrite Hdays. unfold row_days.
  destruct (In_Progress_Date r) as [ip|], (Done_Date r) as [dn|]; try done.
  split; [done|]. intros ->. f_equal. lia.
Qed.

Lemma series_min_first_transition (rows : list Event.t) (k : cell)
    (aliases : gset string) :
  (∀ e, e ∈ rows → ∃ t, Event.Date_of_change e = Ts t) →
  is_first_transition rows k aliases
    (series_min (Event.Date_of_change <$>
       filter (λ e, Event.Key e = k)
         (filter (λ e, isin aliases (Event.Status_new e)) rows))).
Proof.
  intros Hts. unfold is_first_transition.
  destruct (series_min _) as [t|] eqn:Hm.
  - apply series_min_Some in Hm as [Hin Hle]. split.
    + apply list_elem_of_fmap in Hin as (e & Ht & He).
      rewrite !list_elem_of_filter in He. exists e. naive_solver.
    + intros e t' He Hk Hal Ht'. apply Hle. rewrite <- Ht'.
      apply list_elem_of_fmap_2. by rewrite !list_elem_of_filter.
  - intros e He Hk Hal. destruct (Hts e He) as [t Ht].
    apply (series_min_None _ Hm t). rewrite <- Ht.
    apply list_elem_of_fmap_2. by rewrite !list_elem_of_filter.
Qed.

(** C5, as the routine has it: each date of a row of the result table,
    when present, is the earliest timestamp (time of day included) among
    the retained rows of that key whose normalized new status is in the
    alias set; it is missing exactly when there is no such row. *)
Theorem dates_are_first_transitions (df_raw : ref) (tz_name : string)
    (in_prog_set done_set : gset string) (h : heap)
    (results : list MetricResult) (statuses : list string) (r : MetricResult) :
  (compute_metrics to_datetime today_in df_raw tz_name in_prog_set done_set h).2
    = inr (results, statuses) →
  r ∈ results →
  let rows := working_set to_datetime (h !!! df_raw) in
  is_first_transition rows (Key r) in_prog_set (In_Progress_Date r)
  ∧ is_first_transition rows (Key r) done_set (Done_Date r).
Proof.
  intros Hrun Hr rows.
  destruct (result_row _ _ _ _ _ _ _ _ _ _ Hrun Hr)
    as (today & _ & -> & -> & _).
  split; apply series_min_first_transition;
    intros e He; by apply working_set_retained in He as [_ ?].
Qed.

(** *** The status catalogue *)

Lemma working_set_values (cs : list string) (before after : list (list cell)) :
  working_set to_datetime {| columns := cs; values := before ++ after |}
  = working_set to_datetime {| columns := cs; values := before |}
    ++ working_set to_datetime {| columns := cs; values := after |}.
Proof.
  unfold working_set. cbn [rename columns values].
  destruct (locate _) as [|[[[k d] s] n]]; [done|].
  by rewrite fmap_app, filter_app.
Qed.

(** A call looks at the column labels and at the working set, nothing
    else of the frame. *)
Lemma outcome_ext (raw1 raw2 : DataFrame) (tz_name : string)
    (in_prog_set done_set : gset string) :
  columns raw1 = columns raw2 →
  working_set to_datetime raw1 = working_set to_datetime raw2 →
  outcome to_datetime today_in raw1 tz_name in_prog_set done_set
  = outcome to_datetime today_in raw2 tz_name in_prog_set done_set.
Proof.
  intros Hcs Hws. unfold outcome. cbn [rename columns]. by rewrite Hcs, Hws.
Qed.

Lemma elem_of_status_catalog (rows : list Event.t) (s : string) :
  s ∈ status_catalog rows
  ↔ ∃ e, e ∈ rows ∧ (Event.Status e = Str s ∨ Event.Status_new e = Str s).
Proof.
  unfold status_catalog. rewrite elem_of_merge_sort, list_elem_of_omap.
  setoid_rewrite elem_of_unique. setoid_rewrite elem_of_app.
  setoid_rewrite list_elem_of_filter. setoid_rewrite list_elem_of_fmap.
  split.
  - intros (c & [[_ (e & -> & He)]|[_ (e & -> & He)]] & Hs);
      exists e; (split; [done|]).
    + left. by destruct (Event.Status e); simplify_eq/=.
    + right. by destruct (Event.Status_new e); simplify_eq/=.
  - intros (e & He & [Hs|Hs]); exists (Str s); (split; [|done]).
    + left. split; [done|]. exists e. by rewrite Hs.
    + right. split; [done|]. exists e. by rewrite Hs.
Qed.

(** C7: the status list is the duplicate-free, ascending list of the
    strings found in the two (normalized) status columns of the retained
    rows; a discarded row can be taken out of the input without any change
    to the table or to the list. *)
Theorem statuses_of_retained_rows (df_raw : ref) (tz_name : string)
    (in_prog_set done_set : gset string) (h : heap)
    (results : list MetricResult) (statuses : list string) :
  (compute_metrics to_datetime today_in df_raw tz_name in_prog_set done_set h).2
    = inr (results, statuses) →
  let raw := h !!! df_raw in
  let rows := working_set to_datetime raw in
  StronglySorted String.le statuses
  ∧ NoDup statuses
  ∧ (∀ s, s ∈ statuses
          ↔ ∃ e, e ∈ rows ∧ (Event.Status e = Str s ∨ Event.Status_new e = Str s))
  ∧ ∀ before bad after h2 df2,
      values raw = before ++ bad :: after →
      working_set to_datetime {| columns := columns raw; values := [bad] |} = [] →
      h2 !!! df2 = {| columns := columns raw; values := before ++ after |} →
      (compute_metrics to_datetime today_in df2 tz_name in_prog_set done_set h2).2
        = inr (results, statuses).
Proof.
  intros Hrun raw rows. pose proof Hrun as Hout.
  rewrite compute_metrics_outcome in Hout. fold raw in Hout.
  assert (statuses = status_catalog rows) as Hst.
  { unfold outcome in Hout. repeat case_match; by simplify_eq. }
  split_and!.
  - rewrite Hst. apply (StronglySorted_merge_sort _).
  - rewrite Hst. unfold status_catalog. rewrite merge_sort_Permutation.
    apply NoDup_omap_as_str, NoDup_unique.
  - intros s. rewrite Hst. apply elem_of_status_catalog.
  - intros before bad after h2 df2 Hvals Hbad Hraw2.
    rewrite compute_metrics_outcome, Hraw2, <- Hout. apply outcome_ext; [done|].
    destruct raw as [cs vs] eqn:Hraw. simpl in *. subst vs.
    change (bad :: after) with ([bad] ++ after).
    by rewrite !working_set_values, Hbad.
Qed.

Lemma unparseable_date_discarded (cs : list string) (k d s n : nat) (bad : list cell) :
  locate (columns (rename (mapper cs) {| columns := cs; values := [bad] |}))
    = inr (k, d, s, n) →
  (∀ t, to_datetime (cell_at d bad) ≠ Some (Some t)) →
  working_set to_datetime {| columns := cs; values := [bad] |} = [].
Proof.
  intros Hloc Hbad. unfold working_set. cbn [columns values] in *. rewrite Hloc.
  simpl. rewrite filter_cons_False; [done|].
  unfold retained, event_of, coerce_datetime. simpl.
  destruct (to_datetime (cell_at d bad)) as [[t|]|].
  - by destruct (Hbad t).
  - rewrite andb_false_r. intros [].
  - rewrite andb_false_r. intros [].
Qed.

(** *** Discarded rows *)

Lemma notna_NA (c : cell) : notna c ↔ c ≠ NA.
Proof. destruct c; simpl; naive_solver. Qed.

Lemma filter_fmap_comm {A B} (f : A → B) (P : B → Prop) `{!∀ y, Decision (P y)}
    (l : list A) :
  filter P (f <$> l) = f <$> filter (λ x, P (f x)) l.
Proof.
  induction l as [|x l IH]; [done|]. rewrite fmap_cons, !filter_cons.
  destruct (decide (P (f x))); by rewrite ?fmap_cons, IH.
Qed.

(** C2, as the routine has it: the working frame holds exactly the rows of
    the normalized frame whose key is not missing and whose date of change
    parsed; the rows that are dropped never make a call abort: a dataset
    with the same headers that differs only in such rows ends as this one
    does. *)
Theorem dropna_keeps_rows_with_key_and_date (df_raw : ref) (tz_name : string)
    (in_prog_set done_set : gset string) (h h' : heap)
    (res : list MetricResult * list string) :
  compute_metrics to_datetime today_in df_raw tz_name in_prog_set done_set h
    = (h', inr res) →
  let raw := h !!! df_raw in
  ∃ k d s n renamed normalized working,
    h' = h ++ [renamed; normalized; working]
    ∧ locate (columns renamed) = inr (k, d, s, n)
    ∧ values normalized = normalize_row to_datetime d s n <$> values raw
    ∧ values working
      = filter (λ row, cell_at k row ≠ NA ∧ cell_at d row ≠ NA) (values normalized)
    ∧ (∀ row,
         cell_at k (normalize_row to_datetime d s n row) = cell_at k row
         ∧ (cell_at d (normalize_row to_datetime d s n row) ≠ NA
            ↔ ∃ t, to_datetime (cell_at d row) = Some (Some t)))
    ∧ ∀ h2 df2,
        columns (h2 !!! df2) = columns raw →
        filter (λ row, notna (cell_at k row)
                       ∧ notna (coerce_datetime to_datetime (cell_at d row)))
          (values (h2 !!! df2))
        = filter (λ row, notna (cell_at k row)
                         ∧ notna (coerce_datetime to_datetime (cell_at d row)))
            (values raw) →
        (compute_metrics to_datetime today_in df2 tz_name in_prog_set done_set h2).2
          = inr res.
Proof.
  intros Hcall raw.
  destruct (compute_metrics_run to_datetime today_in df_raw tz_name
              in_prog_set done_set h) as (new & Hrun & _ & Hnew).
  fold raw in Hrun, Hnew. rewrite Hcall in Hrun.
  injection Hrun as -> Hout. unfold outcome in Hout.
  destruct (decide (missing (columns raw) = [])) as [Hm|]; [|done].
  destruct (locate (columns (rename (mapper (columns raw)) raw)))
    as [|[[[k d] s] n]] eqn:Hloc; [done|].
  destruct (today_in tz_name) as [today|] eqn:Htoday; [|done].
  destruct (locate_distinct _ _ _ _ _ Hloc) as (? & ? & ? & ? & ? & ?).
  eexists k, d, s, n, _, _, _. split; [by rewrite (Hnew k d s n)|].
  cbn [columns values]. split_and!; [done..| | |].
  - apply list_filter_iff. intros row. unfold keep_row.
    by rewrite andb_True, !notna_NA.
  - intros row.
    assert (Hview := view_normalize_row to_datetime k d s n row).
    do 6 (specialize (Hview ltac:(done))).
    unfold event_of in Hview. injection Hview as -> -> _ _. split; [done|].
    unfold coerce_datetime.
    destruct (to_datetime (cell_at d row)) as [[t|]|].
    + split; [by exists t|done].
    + split; [by intros []|by intros [? ?]].
    + split; [by intros []|by intros [? ?]].
  - intros h2 df2 Hcs Hkept.
    assert ((compute_metrics to_datetime today_in df_raw tz_name
               in_prog_set done_set h).2 = inr res) as <- by by rewrite Hcall.
    rewrite !compute_metrics_outcome. fold raw. apply outcome_ext; [done|].
    unfold working_set. cbn [rename columns] in *. rewrite Hcs, Hloc.
    rewrite !filter_fmap_comm.
    rewrite (list_filter_iff _
               (λ row, notna (cell_at k row)
                       ∧ notna (coerce_datetime to_datetime (cell_at d row)))
               (values (h2 !!! df2)))
      by (intros row; unfold retained, event_of; simpl; by rewrite andb_True).
    rewrite (list_filter_iff _
               (λ row, notna (cell_at k row)
                       ∧ notna (coerce_datetime to_datetime (cell_at d row)))
               (values raw))
      by (intros row; unfold retained, event_of; simpl; by rewrite andb_True).
    by rewrite Hkept.
Qed.

(** *** Column resolution *)

(** C4: a required name counts as present when some column equals it up to
    case; when one is absent the call raises the error that lists every
    absent name, and the store is left as it was. *)
Theorem missing_columns_error (df_raw : ref) (tz_name : string)
    (in_prog_set done_set : gset string) (h : heap) :
  let raw := h !!! df_raw in
  let unmatched :=
    filter (λ n, Forall (λ c, lower c ≠ lower n) (columns raw)) required in
  (unmatched ≠ [] →
     compute_metrics to_datetime today_in df_raw tz_name in_prog_set done_set h
       = (h, inl (ValueError unmatched)))
  ∧ (unmatched = [] →
     ∀ names,
       (compute_metrics to_datetime today_in df_raw tz_name in_prog_set done_set h).2
         ≠ inl (ValueError names))
  ∧ ∀ n c, cols (columns raw) !! n = Some c → c ∈ columns raw ∧ lower c = n.
Proof.
  intros raw unmatched.
  assert (missing (columns raw) = unmatched) as Hmiss by apply missing_unmatched.
  destruct (compute_metrics_run to_datetime today_in df_raw tz_name
              in_prog_set done_set h) as (new & Hrun & Hnew & _).
  fold raw in Hrun, Hnew. rewrite Hmiss in *. split_and!.
  - intros Hne. rewrite Hrun, (Hnew Hne), app_nil_r. unfold outcome.
    fold raw. rewrite Hmiss. by rewrite decide_False.
  - intros He names. rewrite Hrun. unfold outcome. rewrite Hmiss.
    rewrite decide_True by done. cbn [snd].
    destruct (locate _) as [e|] eqn:Hloc.
    + unfold locate in Hloc. repeat case_match; by simplify_eq.
    + by destruct (today_in tz_name).
  - apply cols_lookup_Some.
Qed.

(** *** The store *)

(** C9: a call leaves every object that was in the store as it was, the
    frame behind [df_raw] among them; what it builds, it builds in new
    objects. *)
Theorem store_is_extended (df_raw : ref) (tz_name : string)
    (in_prog_set done_set : gset string) (h : heap) (r : ref) (d : DataFrame) :
  h !! r = Some d →
  let h' :=
    (compute_metrics to_datetime today_in df_raw tz_name in_prog_set done_set h).1 in
  h' !! r = Some d ∧ ∃ new, h' = h ++ new.
Proof.
  intros Hr h'. subst h'.
  destruct (compute_metrics_run to_datetime today_in df_raw tz_name
              in_prog_set done_set h) as (new & -> & _).
  cbn [fst]. split; [by apply lookup_app_l_Some|by exists new].
Qed.

(** *** Determinism *)

(** C8: the value or exception a call ends with is a function of the
    frame behind [df_raw], the zone name, the two alias sets and the date
    the clock gives for that zone: two calls that agree on these end
    alike, whatever else the store holds and whatever the clock says for
    other zones. *)
Theorem compute_metrics_deterministic (today_in' : string → option Z)
    (df_raw df_raw' : ref) (tz_name : string)
    (in_prog_set done_set : gset string) (h h' : heap) :
  h !!! df_raw = h' !!! df_raw' →
  today_in tz_name = today_in' tz_name →
  (compute_metrics to_datetime today_in df_raw tz_name in_prog_set done_set h).2
  = (compute_metrics to_datetime today_in' df_raw' tz_name in_prog_set done_set h').2.
Proof.
  intros Hraw Htoday. rewrite !compute_metrics_outcome, Hraw.
  unfold outcome. by rewrite Htoday.
Qed.

(** *** The scenario of one key that is started and then closed *)

(** C6: two rows for K1, "IN PROGRESS" on 2024-01-01 and "DONE" on
    2024-01-05, with the default aliases: one row K1, 5 days,
    "Cycle Time". *)
Theorem scenario_started_then_done (df_raw : ref) (tz_name : string) (h : heap)
    (old1 old2 : cell) (today_local : Z) :
  h !!! df_raw
    = {| columns := standard_columns;
         values := [ [Str "K1"; Str "2024-01-01"; old1; Str "IN PROGRESS"];
                     [Str "K1"; Str "2024-01-05"; old2; Str "DONE"] ] |} →
  to_datetime (Str "2024-01-01") = Some (Some (timestamp_of 2024 1 1 0 0 0)) →
  to_datetime (Str "2024-01-05") = Some (Some (timestamp_of 2024 1 5 0 0 0)) →
  today_in tz_name = Some today_local →
  ∃ statuses,
    (compute_metrics to_datetime today_in df_raw tz_name
       default_in_progress default_done h).2
    = inr (scenario_K1_results, statuses).
Proof.
  intros Hraw Hd1 Hd5 Htoday.
  rewrite compute_metrics_outcome, Hraw. unfold outcome.
  set (raw := {| columns := standard_columns; values := _ |}).
  assert (missing (columns raw) = []) as -> by (vm_compute; reflexivity).
  rewrite decide_True by done.
  assert (locate (columns (rename (mapper (columns raw)) raw))
          = inr (0, 1, 2, 3)%nat) as Hloc by (vm_compute; reflexivity).
  assert (working_set to_datetime raw
          = [ {| Event.Key := Str "K1";
                 Event.Date_of_change := Ts (timestamp_of 2024 1 1 0 0 0);
                 Event.Status := normalize_status old1;
                 Event.Status_new := Str "IN PROGRESS" |};
              {| Event.Key := Str "K1";
                 Event.Date_of_change := Ts (timestamp_of 2024 1 5 0 0 0);
                 Event.Status := normalize_status old2;
                 Event.Status_new := Str "DONE" |} ]) as ->.
  { unfold working_set. rewrite Hloc. unfold raw. cbn [values fmap list_fmap].
    unfold event_of, coerce_datetime, cell_at. cbn [lookup_total list_lookup_total].
    rewrite Hd1, Hd5. reflexivity. }
  rewrite Hloc, Htoday. eexists. reflexivity.
Qed.

End results.

(** ** The scenarios, run *)

Lemma call_scenario_K1 :
  (call scenario_K1).2 = inr (scenario_K1_results, scenario_K1_statuses).
Proof. vm_compute. reflexivity. Qed.

Lemma call_with_bad_date :
  (call with_bad_date).2 = inr (scenario_K1_results, scenario_K1_statuses).
Proof. vm_compute. reflexivity. Qed.

Lemma call_done_only : (call done_only).2 = inr ([done_only_row], ["DONE"; "TO DO"]).
Proof. vm_compute. reflexivity. Qed.

Lemma call_started_only :
  (call started_only).2 = inr ([started_only_row], ["IN PROGRESS"; "TO DO"]).
Proof. vm_compute. reflexivity. Qed.

(** A done date before the in-progress date gives a day count below one,
    and the table reports it. *)
Lemma negative_cycle_time_reported :
  (call done_before_start).2
  = inr ([ {| Key := Str "K4";
              In_Progress_Date := Some (timestamp_of 2024 1 5 0 0 0);
              Done_Date := Some (timestamp_of 2024 1 2 0 0 0);
              Days := Some (-2);
              Metric_Type := Some "Cycle Time" |} ],
         ["DONE"; "IN PROGRESS"; "TO DO"]).
Proof. vm_compute. reflexivity. Qed.

(** Headers are matched whatever their case. *)
Lemma headers_in_any_case :
  (call {| columns := ["KEY"; "date of CHANGE"; "status"; "Status [NEW]"];
           values := values scenario_K1 |}).2
  = inr (scenario_K1_results, scenario_K1_statuses).
Proof. vm_compute. reflexivity. Qed.

Lemma result_row_has_a_date_witness :
  (call scenario_K1).2 = inr (scenario_K1_results, scenario_K1_statuses)
  ∧ scenario_K1_row ∈ scenario_K1_results
  ∧ (is_Some (In_Progress_Date scenario_K1_row) ∨ is_Some (Done_Date scenario_K1_row))
  ∧ is_Some (Metric_Type scenario_K1_row).
Proof.
  assert (scenario_K1_row ∈ scenario_K1_results) as Hin by apply list_elem_of_here.
  split; [exact call_scenario_K1|]. split; [exact Hin|].
  exact (result_row_has_a_date iso_to_datetime clock_2024_01_10 0%nat "UTC"
           default_in_progress default_done [scenario_K1]
           scenario_K1_results scenario_K1_statuses scenario_K1_row
           call_scenario_K1 Hin).
Defined.

(** C1 as stated fails: a key with a done transition and no in-progress
    transition gives a "Cycle Time" row whose in-progress date is missing. *)
Lemma cycle_time_without_in_progress_date :
  (call done_only).2 = inr ([done_only_row], ["DONE"; "TO DO"])
  ∧ done_only_row ∈ [done_only_row]
  ∧ Metric_Type done_only_row = Some "Cycle Time"
  ∧ In_Progress_Date done_only_row = None.
Proof.
  split; [vm_compute; reflexivity|].
  split; [apply list_elem_of_here|]. split; reflexivity.
Qed.

Lemma metric_type_classification_witness :
  (call done_only).2 = inr ([done_only_row], ["DONE"; "TO DO"])
  ∧ (Metric_Type done_only_row = Some "Cycle Time"
     ∨ Metric_Type done_only_row = Some "Work Item Age")
  ∧ ¬ (In_Progress_Date done_only_row = None ∧ Done_Date done_only_row = None)
  ∧ (Metric_Type done_only_row = Some "Cycle Time" ↔ is_Some (Done_Date done_only_row))
  ∧ (Metric_Type done_only_row = Some "Work Item Age"
     ↔ Done_Date done_only_row = None ∧ is_Some (In_Progress_Date done_only_row))
  ∧ (In_Progress_Date done_only_row = None →
     Metric_Type done_only_row = Some "Cycle Time" ∧ Days done_only_row = None).
Proof.
  split; [exact call_done_only|].
  exact (metric_type_classification iso_to_datetime clock_2024_01_10 0%nat "UTC"
           default_in_progress default_done [done_only]
           [done_only_row] ["DONE"; "TO DO"] done_only_row
           call_done_only (list_elem_of_here _ _)).
Defined.

Lemma days_of_result_row_witness :
  (call started_only).2 = inr ([started_only_row], ["IN PROGRESS"; "TO DO"])
  ∧ ∃ today_local,
      clock_2024_01_10 "UTC" = Some today_local
      ∧ Days started_only_row
        = Some (today_local - date (timestamp_of 2024 1 8 10 30 0) + 1).
Proof.
  split; [exact call_started_only|].
  exact (days_of_result_row iso_to_datetime clock_2024_01_10 0%nat "UTC"
           default_in_progress default_done [started_only]
           [started_only_row] ["IN PROGRESS"; "TO DO"] started_only_row
           call_started_only (list_elem_of_here _ _)).
Defined.

(** C5 as stated fails: the in-progress date of the table is the earliest
    timestamp itself, 10:30 included, not its date portion. *)
Lemma in_progress_date_keeps_time_of_day :
  (call started_only).2 = inr ([started_only_row], ["IN PROGRESS"; "TO DO"])
  ∧ working_set iso_to_datetime started_only
    = [ {| Event.Key := Str "K3";
           Event.Date_of_change := Ts (timestamp_of 2024 1 8 10 30 0);
           Event.Status := Str "TO DO"; Event.Status_new := Str "IN PROGRESS" |} ]
  ∧ In_Progress_Date started_only_row = Some (timestamp_of 2024 1 8 10 30 0)
  ∧ normalize (timestamp_of 2024 1 8 10 30 0) = timestamp_of 2024 1 8 0 0 0
  ∧ In_Progress_Date started_only_row ≠ Some (normalize (timestamp_of 2024 1 8 10 30 0)).
Proof.
  split; [vm_compute; reflexivity|]. split; [vm_compute; reflexivity|].
  split; [reflexivity|]. split; [vm_compute; reflexivity|].
  vm_compute. discriminate.
Qed.

Lemma dates_are_first_transitions_witness :
  (call started_only).2 = inr ([started_only_row], ["IN PROGRESS"; "TO DO"])
  ∧ is_first_transition (working_set iso_to_datetime started_only) (Str "K3")
      default_in_progress (Some (timestamp_of 2024 1 8 10 30 0))
  ∧ is_first_transition (working_set iso_to_datetime started_only) (Str "K3")
      default_done None.
Proof.
  split; [exact call_started_only|].
  exact (dates_are_first_transitions iso_to_datetime clock_2024_01_10 0%nat "UTC"
           default_in_progress default_done [started_only]
           [started_only_row] ["IN PROGRESS"; "TO DO"] started_only_row
           call_started_only (list_elem_of_here _ _)).
Defined.

Lemma scenario_started_then_done_witness :
  iso_to_datetime (Str "2024-01-01") = Some (Some (timestamp_of 2024 1 1 0 0 0))
  ∧ iso_to_datetime (Str "2024-01-05") = Some (Some (timestamp_of 2024 1 5 0 0 0))
  ∧ clock_2024_01_10 "UTC" = Some (days_from_civil 2024 1 10)
  ∧ ∃ statuses, (call scenario_K1).2 = inr (scenario_K1_results, statuses).
Proof.
  assert (iso_to_datetime (Str "2024-01-01")
          = Some (Some (timestamp_of 2024 1 1 0 0 0))) as Hd1 by reflexivity.
  assert (iso_to_datetime (Str "2024-01-05")
          = Some (Some (timestamp_of 2024 1 5 0 0 0))) as Hd5 by reflexivity.
  assert (clock_2024_01_10 "UTC" = Some (days_from_civil 2024 1 10)) as Htoday
    by reflexivity.
  split; [exact Hd1|]. split; [exact Hd5|]. split; [exact Htoday|].
  exact (scenario_started_then_done iso_to_datetime clock_2024_01_10 0%nat "UTC"
           [scenario_K1] (Str "To Do") (Str "In Progress") (days_from_civil 2024 1 10)
           eq_refl Hd1 Hd5 Htoday).
Defined.

Lemma statuses_of_retained_rows_witness :
  (call with_bad_date).2 = inr (scenario_K1_results, scenario_K1_statuses)
  ∧ StronglySorted String.le scenario_K1_statuses
  ∧ NoDup scenario_K1_statuses
  ∧ (compute_metrics iso_to_datetime clock_2024_01_10 0%nat "UTC"
       default_in_progress default_done
       [ {| columns := standard_columns;
            values := [ [Str "K1"; Str "2024-01-01"; Str "To Do"; Str "In Progress"];
                        [Str "K1"; Str "2024-01-05"; Str "in progress "; Str " done"] ] |} ]).2
    = inr (scenario_K1_results, scenario_K1_statuses).
Proof.
  destruct (statuses_of_retained_rows iso_to_datetime clock_2024_01_10 0%nat "UTC"
              default_in_progress default_done [with_bad_date]
              scenario_K1_results scenario_K1_statuses call_with_bad_date)
    as (Hsorted & Hnodup & _ & Hdrop).
  split; [exact call_with_bad_date|]. split; [exact Hsorted|]. split; [exact Hnodup|].
  apply (Hdrop [ [Str "K1"; Str "2024-01-01"; Str "To Do"; Str "In Progress"] ]
               [Str "K9"; Str "not a date"; Str "Blocked"; Str "Review"]
               [ [Str "K1"; Str "2024-01-05"; Str "in progress "; Str " done"] ]);
    vm_compute; reflexivity.
Defined.

(** C2 as stated fails on blank keys: a key that is an empty or a
    white-space string is not missing, its rows stay in the working frame
    and reach the result table. *)
Lemma blank_keys_are_retained :
  (call blank_keys).1 !! 3%nat
  = Some {| columns := standard_columns;
            values :=
              [ [Str ""; Ts (timestamp_of 2024 1 1 0 0 0); Str "TO DO"; Str "IN PROGRESS"];
                [Str "   "; Ts (timestamp_of 2024 1 3 0 0 0); Str "TO DO";
                 Str "IN PROGRESS"] ] |}
  ∧ (call blank_keys).2 = inr (blank_keys_results, ["IN PROGRESS"; "TO DO"]).
Proof. split; vm_compute; reflexivity. Qed.

Lemma dropna_keeps_rows_with_key_and_date_witness :
  call with_bad_date
  = ((call with_bad_date).1, inr (scenario_K1_results, scenario_K1_statuses))
  ∧ (∃ working,
      (call with_bad_date).1 !! 3%nat = Some working
      ∧ values working
        = [ [Str "K1"; Ts (timestamp_of 2024 1 1 0 0 0); Str "TO DO"; Str "IN PROGRESS"];
            [Str "K1"; Ts (timestamp_of 2024 1 5 0 0 0); Str "IN PROGRESS"; Str "DONE"] ])
  ∧ (call {| columns := standard_columns;
             values := [ [Str "K1"; Str "2024-01-01"; Str "To Do"; Str "In Progress"];
                         [Str "K1"; Str "2024-01-05"; Str "in progress "; Str " done"] ] |}).2
    = inr (scenario_K1_results, scenario_K1_statuses).
Proof.
  assert (call with_bad_date
          = ((call with_bad_date).1, inr (scenario_K1_results, scenario_K1_statuses)))
    as Hcall by (vm_compute; reflexivity).
  split; [exact Hcall|].
  destruct (dropna_keeps_rows_with_key_and_date iso_to_datetime clock_2024_01_10
              0%nat "UTC" default_in_progress default_done [with_bad_date]
              (call with_bad_date).1 (scenario_K1_results, scenario_K1_statuses) Hcall)
    as (k & d & s & n & renamed & normalized & working & Hstore & Hloc & _ & _ & _ & Hsame).
  assert (renamed = with_bad_date
          ∧ values working
            = [ [Str "K1"; Ts (timestamp_of 2024 1 1 0 0 0); Str "TO DO";
                 Str "IN PROGRESS"];
                [Str "K1"; Ts (timestamp_of 2024 1 5 0 0 0); Str "IN PROGRESS";
                 Str "DONE"] ]) as [-> Hworking].
  { rewrite Hstore in Hcall. vm_compute in Hcall. by simplify_eq. }
  vm_compute in Hloc. injection Hloc as <- <- <- <-. split.
  - exists working. split; [by rewrite Hstore|done].
  - apply Hsame; vm_compute; reflexivity.
Defined.

Lemma missing_columns_error_witness :
  call missing_status_new = ([missing_status_new], inl (ValueError ["status [new]"])).
Proof.
  apply (proj1 (missing_columns_error iso_to_datetime clock_2024_01_10 0%nat "UTC"
                  default_in_progress default_done [missing_status_new])).
  vm_compute. discriminate.
Defined.

Lemma store_is_extended_witness :
  [scenario_K1] !! 0%nat = Some scenario_K1
  ∧ (call scenario_K1).1 !! 0%nat = Some scenario_K1
  ∧ ∃ new, (call scenario_K1).1 = [scenario_K1] ++ new.
Proof.
  split; [reflexivity|].
  exact (store_is_extended iso_to_datetime clock_2024_01_10 0%nat "UTC"
           default_in_progress default_done [scenario_K1] 0%nat scenario_K1 eq_refl).
Defined.

Lemma compute_metrics_deterministic_witness :
  [scenario_K1] !!! 0%nat = [done_only; scenario_K1] !!! 1%nat
  ∧ clock_2024_01_10 "UTC" = clock_utc_only "UTC"
  ∧ (compute_metrics iso_to_datetime clock_2024_01_10 0%nat "UTC"
       default_in_progress default_done [scenario_K1]).2
    = (compute_metrics iso_to_datetime clock_utc_only 1%nat "UTC"
         default_in_progress default_done [done_only; scenario_K1]).2.
Proof.
  split; [reflexivity|]. split; [reflexivity|].
  exact (compute_metrics_deterministic iso_to_datetime clock_2024_01_10 clock_utc_only
           0%nat 1%nat "UTC" default_in_progress default_done
           [scenario_K1] [done_only; scenario_K1] eq_refl eq_refl).
Defined.


(** ** Python string methods: facts used below *)

Lemma ascii_upper_idemp (c : ascii) : ascii_upper (ascii_upper c) = ascii_upper c.
Proof. by destruct c as [[] [] [] [] [] [] [] []]. Qed.

Lemma ascii_isspace_upper (c : ascii) : ascii_isspace (ascii_upper c) = ascii_isspace c.
Proof. by destruct c as [[] [] [] [] [] [] [] []]. Qed.

Lemma upper_idemp (s : string) : upper (upper s) = upper s.
Proof.
  induction s as [|c s IH]; [done|]. unfold upper in *. simpl.
  by rewrite ascii_upper_idemp, IH.
Qed.

Lemma upper_empty (s : string) : upper s = EmptyString ↔ s = EmptyString.
Proof. by destruct s. Qed.

Lemma lstrip_upper (s : string) : lstrip (upper s) = upper (lstrip s).
Proof.
  induction s as [|c s IH]; [done|]. unfold upper in *. simpl.
  rewrite ascii_isspace_upper. by destruct (ascii_isspace c).
Qed.

Lemma rstrip_upper (s : string) : rstrip (upper s) = upper (rstrip s).
Proof.
  induction s as [|c s IH]; [done|]. unfold upper in *. simpl.
  rewrite IH, ascii_isspace_upper.
  destruct (rstrip s); simpl; [by destruct (ascii_isspace c)|done].
Qed.

Lemma strip_upper (s : string) : strip (upper s) = upper (strip s).
Proof. unfold strip. by rewrite lstrip_upper, rstrip_upper. Qed.

Lemma rstrip_idemp (s : string) : rstrip (rstrip s) = rstrip s.
Proof.
  induction s as [|c s IH]; [done|]. simpl.
  destruct (rstrip s) as [|c' r] eqn:Hr.
  - destruct (ascii_isspace c) eqn:Hc; [done|]. simpl. by rewrite Hc.
  - simpl in *. by rewrite IH.
Qed.

(** A string that does not start with white space. *)
Lemma lstrip_fixed (s : string) :
  match s with
  | EmptyString => True
  | String c _ => ascii_isspace c = false
  end → lstrip s = s.
Proof. destruct s as [|c s]; [done|]. simpl. by intros ->. Qed.

Lemma lstrip_headed (s : string) :
  match lstrip s with
  | EmptyString => True
  | String c _ => ascii_isspace c = false
  end.
Proof.
  induction s as [|c s IH]; [done|]. simpl.
  by destruct (ascii_isspace c) eqn:Hc; [|simpl].
Qed.

Lemma rstrip_headed (s : string) :
  match s with
  | EmptyString => True
  | String c _ => ascii_isspace c = false
  end →
  match rstrip s with
  | EmptyString => True
  | String c _ => ascii_isspace c = false
  end.
Proof.
  destruct s as [|c s]; [done|]. simpl. intros Hc. rewrite Hc.
  by destruct (rstrip s).
Qed.

Lemma strip_idemp (s : string) : strip (strip s) = strip s.
Proof.
  unfold strip. rewrite (lstrip_fixed (rstrip (lstrip s))).
  - apply rstrip_idemp.
  - apply rstrip_headed, lstrip_headed.
Qed.

Lemma upper_strip_normal (s : string) :
  upper (strip (upper (strip s))) = upper (strip s).
Proof. by rewrite strip_upper, strip_idemp, upper_idemp. Qed.

(** ** [normalize_status] *)

Lemma ascii_upper_is_ascii (c : ascii) :
  (N_of_ascii c <? 128)%N → (N_of_ascii (ascii_upper c) <? 128)%N.
Proof. by destruct c as [[] [] [] [] [] [] [] []]. Qed.

Lemma upper_is_ascii (s : string) : is_ascii s → is_ascii (upper s).
Proof.
  induction s as [|c s IH]; [done|]. unfold upper in *. simpl.
  rewrite !andb_True. intros [Hc Hs]. split; [by apply ascii_upper_is_ascii|auto].
Qed.

Lemma lstrip_is_ascii (s : string) : is_ascii s → is_ascii (lstrip s).
Proof.
  induction s as [|c s IH]; [done|]. simpl. destruct (ascii_isspace c); [|done].
  rewrite andb_True. intros [_ Hs]. auto.
Qed.

Lemma rstrip_is_ascii (s : string) : is_ascii s → is_ascii (rstrip s).
Proof.
  induction s as [|c s IH]; [done|]. simpl. rewrite andb_True. intros [Hc Hs].
  specialize (IH Hs). destruct (rstrip s) as [|c' r].
  - destruct (ascii_isspace c); [done|]. simpl. by rewrite andb_True.
  - simpl in *. rewrite andb_True. by split.
Qed.

(** X1: on ASCII text, where the model of [strip] and [upper] is the
    Python methods exactly, normalizing twice is normalizing once: a status
    that has been trimmed and upper-cased is again ASCII text and is its own
    normal form; cells that are not strings are never touched. *)
Theorem normalize_status_idempotent (c : cell) :
  ascii_text c →
  normalize_status (normalize_status c) = normalize_status c
  ∧ ascii_text (normalize_status c)
  ∧ (as_str c = None → normalize_status c = c).
Proof.
  intros Hc. split_and!; [| |by destruct c].
  - destruct c as [|s| |]; simpl; [done| |done..]. by rewrite upper_strip_normal.
  - destruct c as [|s| |]; simpl in *; [done| |done..].
    by apply upper_is_ascii, rstrip_is_ascii, lstrip_is_ascii.
Qed.

(** ** The orders behind [groupby], [merge] and [sort_values] *)

Global Instance cell_le_total : Total cell_le.
Proof.
  intros [|x|x|x] [|y|y|y]; unfold cell_le; simpl; auto.
  - destruct (String.leb_total x y) as [->| ->]; auto.
  - destruct (Z.leb_spec x y), (Z.leb_spec y x); simpl; auto; lia.
  - destruct (Z.leb_spec x y), (Z.leb_spec y x); simpl; auto; lia.
Qed.

Global Instance cell_le_trans : Transitive cell_le.
Proof.
  intros [|x|x|x] [|y|y|y] [|z|z|z]; unfold cell_le; simpl; try done.
  - intros Hxy Hyz. change (String.le x z). by trans y.
  - rewrite !Is_true_true, !Z.leb_le. lia.
  - rewrite !Is_true_true, !Z.leb_le. lia.
Qed.

Global Instance cell_le_antisym : AntiSymm (=) cell_le.
Proof.
  intros [|x|x|x] [|y|y|y]; unfold cell_le; simpl; try done.
  - intros Hxy Hyx. f_equal. by apply (anti_symm String.le).
  - rewrite !Is_true_true, !Z.leb_le. intros. f_equal. lia.
  - rewrite !Is_true_true, !Z.leb_le. intros. f_equal. lia.
Qed.

Global Instance metric_key_le_total : Total metric_key_le.
Proof.
  intros a b. unfold metric_key_le, metric_key_leb.
  destruct (Metric_Type a) as [x|], (Metric_Type b) as [y|]; simpl; auto.
  - repeat case_decide; simplify_eq.
    + apply (total cell_le).
    + destruct (String.leb_total x y) as [->| ->]; auto.
  - apply (total cell_le).
Qed.

Global Instance metric_key_le_trans : Transitive metric_key_le.
Proof.
  intros a b c. unfold metric_key_le, metric_key_leb.
  destruct (Metric_Type a) as [x|], (Metric_Type b) as [y|],
    (Metric_Type c) as [z|]; simpl; try done.
  - destruct (decide (x = y)) as [->|Hxy], (decide (y = z)) as [->|Hyz].
    + apply (transitivity (R:=cell_le)).
    + auto.
    + rewrite decide_False by done. auto.
    + intros Hle Hle'. destruct (decide (x = z)) as [->|Hxz].
      * destruct Hxy. by apply (anti_symm String.le).
      * change (String.le x z). by trans y.
  - apply (transitivity (R:=cell_le)).
Qed.

Lemma StronglySorted_lookup_lt {A} (R : relation A) (l : list A) (i j : nat) (x y : A) :
  StronglySorted R l → l !! i = Some x → l !! j = Some y → (i < j)%nat → R x y.
Proof.
  intros Hl. revert i j. induction Hl as [|a l Hl IH Hall]; intros i j Hi Hj Hij.
  { by rewrite lookup_nil in Hi. }
  destruct j as [|j]; [lia|]. simpl in Hj. destruct i as [|i]; simpl in Hi.
  - simplify_eq. rewrite Forall_forall in Hall.
    by eapply Hall, list_elem_of_lookup_2.
  - eapply IH; eauto. lia.
Qed.

(** ** More on the result table *)

Section table.

Context (to_datetime : cell → option (option Timestamp)).
Context (today_in : string → option Z).

(** The table of a call that returns, written out. *)
Lemma returned_table (df_raw : ref) (tz_name : string)
    (in_prog_set done_set : gset string) (h : heap)
    (results : list MetricResult) (statuses : list string) :
  (compute_metrics to_datetime today_in df_raw tz_name in_prog_set done_set h).2
    = inr (results, statuses) →
  let rows := working_set to_datetime (h !!! df_raw) in
  ∃ today_local,
    today_in tz_name = Some today_local
    ∧ results
      = sort_values
          ((λ r, set_Metric_Type (row_type r) r) <$>
           ((λ r, set_Days (row_days today_local r) r) <$>
            merge_outer
              (groupby_min (filter (λ e, isin in_prog_set (Event.Status_new e)) rows))
              (groupby_min (filter (λ e, isin done_set (Event.Status_new e)) rows))))
    ∧ statuses = status_catalog rows.
Proof.
  intros Hout rows. rewrite compute_metrics_outcome in Hout. unfold outcome in Hout.
  case_decide; [|done]. destruct (locate _); [done|].
  destruct (today_in tz_name) as [today_local|]; [|done].
  cbv zeta in Hout. simplify_eq. by exists today_local.
Qed.

Lemma Key_results (today_local : Z) (tbl : list MetricResult) :
  Key <$> sort_values
            ((λ r, set_Metric_Type (row_type r) r) <$>
             ((λ r, set_Days (row_days today_local r) r) <$> tbl))
  ≡ₚ Key <$> tbl.
Proof.
  unfold sort_values. rewrite merge_sort_Permutation.
  by rewrite <- !list_fmap_compose.
Qed.

(** X2: the result table has one row per key: [groupby] leaves one row per
    key on either side of the join, and the join pairs rows of equal key. *)
Theorem one_row_per_key (df_raw : ref) (tz_name : string)
    (in_prog_set done_set : gset string) (h : heap)
    (results : list MetricResult) (statuses : list string) :
  (compute_metrics to_datetime today_in df_raw tz_name in_prog_set done_set h).2
    = inr (results, statuses) →
  NoDup (Key <$> results).
Proof.
  intros (today_local & _ & -> & _)%returned_table.
  rewrite Key_results. apply NoDup_merge_outer; apply NoDup_groupby_min.
Qed.

Lemma groupby_min_keys (rows : list Event.t) (k : cell) :
  k ∈ (groupby_min rows).*1 ↔ notna k ∧ ∃ e, e ∈ rows ∧ Event.Key e = k.
Proof.
  unfold groupby_min. rewrite <- list_fmap_compose.
  rewrite (list_fmap_ext _ id), list_fmap_id by done.
  rewrite elem_of_merge_sort, elem_of_unique, list_elem_of_filter, list_elem_of_fmap.
  naive_solver.
Qed.

(** X3: the keys of the result table are exactly the keys of the retained
    rows whose normalized new status is an in-progress or a done alias; a
    key without such a row has no row in the table. *)
Theorem keys_of_result_table (df_raw : ref) (tz_name : string)
    (in_prog_set done_set : gset string) (h : heap)
    (results : list MetricResult) (statuses : list string) (k : cell) :
  (compute_metrics to_datetime today_in df_raw tz_name in_prog_set done_set h).2
    = inr (results, statuses) →
  k ∈ Key <$> results
  ↔ ∃ e, e ∈ working_set to_datetime (h !!! df_raw)
         ∧ Event.Key e = k
         ∧ (isin in_prog_set (Event.Status_new e)
            ∨ isin done_set (Event.Status_new e)).
Proof.
  intros (today_local & _ & -> & _)%returned_table.
  rewrite Key_results, elem_of_merge_outer_keys, !groupby_min_keys.
  setoid_rewrite list_elem_of_filter. split.
  - intros [(_ & e & [? ?] & ?)|(_ & e & [? ?] & ?)]; exists e; auto.
  - intros (e & He & <- & Hin).
    destruct (working_set_retained _ _ _ He) as [Hk _].
    destruct Hin; [left|right]; (split; [done|]); exists e; auto.
Qed.

(** X4: the rows of the result table come in the order of [sort_values]:
    by metric type, then by key. A "Work Item Age" row is never followed by
    a "Cycle Time" row, and rows of one type come in ascending key order. *)
Theorem result_table_sorted (df_raw : ref) (tz_name : string)
    (in_prog_set done_set : gset string) (h : heap)
    (results : list MetricResult) (statuses : list string) :
  (compute_metrics to_datetime today_in df_raw tz_name in_prog_set done_set h).2
    = inr (results, statuses) →
  StronglySorted metric_key_le results
  ∧ ∀ i j a b, results !! i = Some a → results !! j = Some b → (i < j)%nat →
      ¬ (Metric_Type a = Some "Work Item Age" ∧ Metric_Type b = Some "Cycle Time")
      ∧ (Metric_Type a = Metric_Type b → cell_le (Key a) (Key b)).
Proof.
  intros (today_local & _ & -> & _)%returned_table.
  assert (StronglySorted metric_key_le
            (sort_values
               ((λ r, set_Metric_Type (row_type r) r) <$>
                ((λ r, set_Days (row_days today_local r) r) <$>
                 merge_outer
                   (groupby_min
                      (filter (λ e, isin in_prog_set (Event.Status_new e))
                         (working_set to_datetime (h !!! df_raw))))
                   (groupby_min
                      (filter (λ e, isin done_set (Event.Status_new e))
                         (working_set to_datetime (h !!! df_raw))))))))
    as Hsorted by apply (StronglySorted_merge_sort _).
  split; [done|]. intros i j a b Ha Hb Hij.
  pose proof (StronglySorted_lookup_lt _ _ _ _ _ _ Hsorted Ha Hb Hij) as Hab.
  unfold metric_key_le, metric_key_leb in Hab. split.
  - intros [Hta Htb]. rewrite Hta, Htb in Hab. by vm_compute in Hab.
  - intros Hty. rewrite Hty in Hab.
    destruct (Metric_Type b); [by rewrite decide_True in Hab|done].
Qed.

(** *** The time zone *)

(** X5: with a zone name that pytz does not know, a call never returns a
    table. The check of the columns comes first: when a required column is
    missing the call raises the error of the missing columns, whatever the
    zone name. And when the same call returns under a clock that knows the
    zone, so that nothing before the clock is read stops it, it raises the
    error of the unknown zone. *)
Theorem unknown_time_zone (today_in' : string → option Z)
    (df_raw : ref) (tz_name : string)
    (in_prog_set done_set : gset string) (h : heap) :
  today_in tz_name = None →
  let raw := h !!! df_raw in
  let out :=
    (compute_metrics to_datetime today_in df_raw tz_name in_prog_set done_set h).2 in
  (∀ res, out ≠ inr res)
  ∧ (missing (columns raw) ≠ [] → out = inl (ValueError (missing (columns raw))))
  ∧ (∀ res,
       (compute_metrics to_datetime today_in' df_raw tz_name in_prog_set done_set h).2
         = inr res →
       out = inl (UnknownTimeZoneError tz_name)).
Proof.
  intros Htz raw out. subst out. rewrite !compute_metrics_outcome. fold raw.
  unfold outcome. rewrite Htz. split_and!.
  - intros res. case_decide; [|done]. by destruct (locate _).
  - intros Hm. by rewrite decide_False.
  - intros res. case_decide; [|done]. by destruct (locate _).
Qed.

(** *** What a call reads of the rows *)

Lemma outcome_agree (raw1 raw2 : DataFrame) (tz_name : string)
    (in_prog_set done_set : gset string) :
  columns raw1 = columns raw2 →
  working_set to_datetime raw1 = working_set to_datetime raw2 →
  outcome to_datetime today_in raw1 tz_name in_prog_set done_set
  = outcome to_datetime today_in raw2 tz_name in_prog_set done_set.
Proof.
  intros Hcs Hws. unfold outcome. cbn [rename columns]. by rewrite Hcs, Hws.
Qed.

Lemma Forall2_fmap_eq {A B C} (R : A → B → Prop) (f : A → C) (g : B → C)
    (l1 : list A) (l2 : list B) :
  (∀ x y, R x y → f x = g y) → Forall2 R l1 l2 → f <$> l1 = g <$> l2.
Proof. intros Hfg. induction 1; simpl; f_equal; auto. Qed.

Lemma Forall2_filter_respect {A B} (R : A → B → Prop) (P : A → Prop) (Q : B → Prop)
    `{!∀ x, Decision (P x), !∀ y, Decision (Q y)} (l1 : list A) (l2 : list B) :
  (∀ x y, R x y → P x ↔ Q y) →
  Forall2 R l1 l2 → Forall2 R (filter P l1) (filter Q l2).
Proof.
  intros HPQ. induction 1 as [|x y l1 l2 Hxy _ IH]; [constructor|].
  rewrite !filter_cons. pose proof (HPQ x y Hxy).
  repeat case_decide; try tauto; by try constructor.
Qed.

(** X6: the status list apart, a call reads the status before the change
    nowhere: two datasets with the same headers whose rows agree, one by
    one, on the key, on the date of change and on the new status give the
    same result table, whatever their "Status" columns hold. *)
Theorem table_ignores_old_status (df1 df2 : ref) (tz_name : string)
    (in_prog_set done_set : gset string) (h1 h2 : heap) (k d s n : nat)
    (results : list MetricResult) (statuses : list string) :
  columns (h1 !!! df1) = columns (h2 !!! df2) →
  locate (columns (rename (mapper (columns (h1 !!! df1))) (h1 !!! df1)))
    = inr (k, d, s, n) →
  Forall2 (λ r1 r2, cell_at k r1 = cell_at k r2 ∧ cell_at d r1 = cell_at d r2
                    ∧ cell_at n r1 = cell_at n r2)
    (values (h1 !!! df1)) (values (h2 !!! df2)) →
  (compute_metrics to_datetime today_in df1 tz_name in_prog_set done_set h1).2
    = inr (results, statuses) →
  ∃ statuses',
    (compute_metrics to_datetime today_in df2 tz_name in_prog_set done_set h2).2
      = inr (results, statuses').
Proof.
  intros Hcs Hloc Hrows Hcall.
  pose proof Hcall as (today_local & Htoday & -> & _)%returned_table.
  rewrite compute_metrics_outcome in *. unfold outcome in *.
  set (raw1 := h1 !!! df1) in *. set (raw2 := h2 !!! df2) in *.
  cbn [rename columns] in *. rewrite <- Hcs, Hloc, Htoday in *.
  case_decide; [|done]. eexists. do 3 f_equal.
  set (R := λ e1 e2 : Event.t,
         Event.Key e1 = Event.Key e2
         ∧ Event.Date_of_change e1 = Event.Date_of_change e2
         ∧ Event.Status_new e1 = Event.Status_new e2).
  assert (Forall2 R (working_set to_datetime raw2) (working_set to_datetime raw1))
    as Hws.
  { unfold working_set. cbn [rename columns]. rewrite <- Hcs, Hloc.
    apply Forall2_filter_respect.
    - intros e1 e2 (Hk & Hd & _). unfold retained. by rewrite Hk, Hd.
    - apply Forall2_fmap, Forall2_flip. eapply Forall2_impl; [exact Hrows|].
      intros r1 r2 (Hk & Hd & Hn). unfold R, event_of. simpl.
      by rewrite Hk, Hd, Hn. }
  assert (∀ aliases,
    groupby_min (filter (λ e, isin aliases (Event.Status_new e))
                   (working_set to_datetime raw2))
    = groupby_min (filter (λ e, isin aliases (Event.Status_new e))
                     (working_set to_datetime raw1))) as Htbl.
  { intros aliases.
    assert (Forall2 R
              (filter (λ e, isin aliases (Event.Status_new e))
                 (working_set to_datetime raw2))
              (filter (λ e, isin aliases (Event.Status_new e))
                 (working_set to_datetime raw1))) as Hf.
    { apply Forall2_filter_respect; [|done]. intros e1 e2 (_ & _ & Hn). by rewrite Hn. }
    unfold groupby_min.
    rewrite (Forall2_fmap_eq R Event.Key Event.Key _ _ ltac:(by intros ?? [? _]) Hf).
    apply list_fmap_ext. intros _ key _. do 2 f_equal.
    apply (Forall2_fmap_eq R); [by intros ?? (_ & ? & _)|].
    apply Forall2_filter_respect; [|done]. intros e1 e2 (Hk & _). by rewrite Hk. }
  by rewrite !Htbl.
Qed.

(** X8: statuses are compared in normal form: two datasets with the same
    headers whose rows agree, one by one, on the key and on the date of
    change, and on both statuses once these are trimmed and upper-cased,
    end alike, table and status list. *)
Theorem statuses_compared_in_normal_form (df1 df2 : ref) (tz_name : string)
    (in_prog_set done_set : gset string) (h1 h2 : heap) (k d s n : nat) :
  columns (h1 !!! df1) = columns (h2 !!! df2) →
  locate (columns (rename (mapper (columns (h1 !!! df1))) (h1 !!! df1)))
    = inr (k, d, s, n) →
  Forall2 (λ r1 r2, cell_at k r1 = cell_at k r2 ∧ cell_at d r1 = cell_at d r2
                    ∧ normalize_status (cell_at s r1) = normalize_status (cell_at s r2)
                    ∧ normalize_status (cell_at n r1) = normalize_status (cell_at n r2))
    (values (h1 !!! df1)) (values (h2 !!! df2)) →
  (compute_metrics to_datetime today_in df1 tz_name in_prog_set done_set h1).2
  = (compute_metrics to_datetime today_in df2 tz_name in_prog_set done_set h2).2.
Proof.
  intros Hcs Hloc Hrows. rewrite !compute_metrics_outcome.
  apply outcome_agree; [done|].
  unfold working_set. cbn [rename columns] in *. rewrite <- Hcs, Hloc. f_equal.
  eapply Forall2_fmap_eq; [|exact Hrows].
  intros r1 r2 (Hk & Hd & Hs & Hn). unfold event_of. by rewrite Hk, Hd, Hs, Hn.
Qed.

(** *** Order and repetition of the input rows *)

Lemma merge_sort_unique_ext {A} `{EqDecision A} (R : relation A)
    `{!RelDecision R, !Transitive R, !AntiSymm (=) R, !Total R} (l1 l2 : list A) :
  (∀ x, x ∈ l1 ↔ x ∈ l2) →
  merge_sort R (unique l1) = merge_sort R (unique l2).
Proof.
  intros Hl. apply (Sorted_unique R); [apply (Sorted_merge_sort _)..|].
  rewrite !merge_sort_Permutation.
  apply NoDup_Permutation; [apply NoDup_unique..|].
  intros x. by rewrite !elem_of_unique.
Qed.

Lemma series_min_ext (l1 l2 : list cell) :
  (∀ t, Ts t ∈ l1 ↔ Ts t ∈ l2) → series_min l1 = series_min l2.
Proof.
  intros Hl.
  destruct (series_min l1) as [m1|] eqn:H1, (series_min l2) as [m2|] eqn:H2.
  - apply series_min_Some in H1 as [Hin1 Hle1], H2 as [Hin2 Hle2].
    apply Hl in Hin1. apply Hl in Hin2.
    specialize (Hle1 _ Hin2). specialize (Hle2 _ Hin1). f_equal. lia.
  - apply series_min_Some in H1 as [Hin1 _].
    destruct (series_min_None _ H2 m1). by apply Hl.
  - apply series_min_Some in H2 as [Hin2 _].
    destruct (series_min_None _ H1 m2). by apply Hl.
  - done.
Qed.

Lemma groupby_min_ext (rows1 rows2 : list Event.t) :
  (∀ e, e ∈ rows1 ↔ e ∈ rows2) → groupby_min rows1 = groupby_min rows2.
Proof.
  intros Hrows. unfold groupby_min.
  rewrite (merge_sort_unique_ext cell_le _ (filter (λ k, notna k) (Event.Key <$> rows2))).
  - apply list_fmap_ext. intros _ k _. f_equal. apply series_min_ext. intros t.
    rewrite !list_elem_of_fmap. setoid_rewrite list_elem_of_filter.
    by setoid_rewrite Hrows.
  - intros k. rewrite !list_elem_of_filter, !list_elem_of_fmap.
    by setoid_rewrite Hrows.
Qed.

Lemma status_catalog_ext (rows1 rows2 : list Event.t) :
  (∀ e, e ∈ rows1 ↔ e ∈ rows2) → status_catalog rows1 = status_catalog rows2.
Proof.
  intros Hrows. unfold status_catalog.
  apply (Sorted_unique String.le); [apply (Sorted_merge_sort _)..|].
  rewrite !merge_sort_Permutation. apply omap_Permutation.
  apply NoDup_Permutation; [apply NoDup_unique..|].
  intros c. rewrite !elem_of_unique, !elem_of_app, !list_elem_of_filter,
    !list_elem_of_fmap. by setoid_rewrite Hrows.
Qed.

(** X10: neither the order of the input rows nor a repeated row matters:
    two datasets with the same headers and the same set of rows end alike,
    table and status list. *)
Theorem rows_are_read_as_a_set (df1 df2 : ref) (tz_name : string)
    (in_prog_set done_set : gset string) (h1 h2 : heap) :
  columns (h1 !!! df1) = columns (h2 !!! df2) →
  (∀ row, row ∈ values (h1 !!! df1) ↔ row ∈ values (h2 !!! df2)) →
  (compute_metrics to_datetime today_in df1 tz_name in_prog_set done_set h1).2
  = (compute_metrics to_datetime today_in df2 tz_name in_prog_set done_set h2).2.
Proof.
  intros Hcs Hrows. rewrite !compute_metrics_outcome.
  set (raw1 := h1 !!! df1) in *. set (raw2 := h2 !!! df2) in *.
  assert (∀ e, e ∈ working_set to_datetime raw1 ↔ e ∈ working_set to_datetime raw2)
    as Hws.
  { intros e. unfold working_set. cbn [rename columns]. rewrite <- Hcs.
    destruct (locate _) as [|[[[k d] s] n]]; [done|].
    rewrite !list_elem_of_filter, !list_elem_of_fmap. by setoid_rewrite Hrows. }
  unfold outcome. cbn [rename columns]. rewrite <- Hcs.
  case_decide; [|done]. destruct (locate _); [done|].
  destruct (today_in tz_name); [|done]. cbv zeta.
  rewrite (status_catalog_ext _ _ Hws).
  rewrite (groupby_min_ext
             (filter (λ e, isin in_prog_set (Event.Status_new e))
                (working_set to_datetime raw1))
             (filter (λ e, isin in_prog_set (Event.Status_new e))
                (working_set to_datetime raw2)))
    by (intros e; rewrite !list_elem_of_filter; by rewrite Hws).
  rewrite (groupby_min_ext
             (filter (λ e, isin done_set (Event.Status_new e))
                (working_set to_datetime raw1))
             (filter (λ e, isin done_set (Event.Status_new e))
                (working_set to_datetime raw2)))
    by (intros e; rewrite !list_elem_of_filter; by rewrite Hws).
  done.
Qed.

(** *** Columns the routine does not ask for *)

Lemma cols_app_extra (cs extra : list string) (n : string) :
  (∀ c, c ∈ extra → lower c ≠ n) → cols (cs ++ extra) !! n = cols cs !! n.
Proof.
  induction extra as [|c extra IH] using rev_ind; intros Hex.
  - by rewrite app_nil_r.
  - rewrite app_assoc, cols_snoc, lookup_insert_ne.
    + apply IH. intros c' Hc'. apply Hex, elem_of_app. by left.
    + apply Hex, elem_of_app. right. by apply list_elem_of_singleton.
Qed.

Lemma get_loc_app_extra (label : string) (cs extra : list string) :
  label ∉ extra → get_loc label (cs ++ extra) = get_loc label cs.
Proof.
  intros Hex. unfold get_loc.
  rewrite length_app, seq_app, filter_app.
  assert (filter (λ i, (cs ++ extra) !! i = Some label)
            (seq (0 + length cs) (length extra)) = []) as ->.
  { apply elem_of_nil_inv. intros i [Hi Hseq]%list_elem_of_filter.
    apply elem_of_seq in Hseq. rewrite lookup_app_r in Hi by lia.
    by apply list_elem_of_lookup_2 in Hi. }
  rewrite app_nil_r.
  rewrite (filter_ext_elem_of _ (λ i, cs !! i = Some label)); [done|].
  intros i Hi%elem_of_seq. by rewrite lookup_app_l by lia.
Qed.

Lemma required_resolved (cs : list string) (n : string) :
  missing cs = [] → n ∈ required →
  ∃ c, cols cs !! n = Some c ∧ cols cs !!! n = c ∧ lower c = n.
Proof.
  intros Hm Hn. destruct (cols cs !! n) as [c|] eqn:Hc.
  - exists c. split; [done|]. split; [|by eapply cols_lookup_Some].
    by rewrite lookup_total_alt, Hc.
  - by destruct (filter_nil_not_elem_of _ _ n Hm Hc).
Qed.

Lemma mapper_lookup_extra (cs : list string) (c : string) :
  missing cs = [] → lower c ∉ required → mapper cs !! c = None.
Proof.
  intros Hm Hc. unfold mapper.
  assert (∀ n, n ∈ required → cols cs !!! n ≠ c) as Hne.
  { intros n Hn Heq. destruct (required_resolved cs n Hm Hn) as (c' & _ & Hc' & Hl).
    rewrite Heq in Hc'. subst c' n. by destruct Hc. }
  rewrite !lookup_insert_ne, lookup_empty; [done|apply Hne..];
    unfold required; rewrite !elem_of_cons; auto.
Qed.

Lemma mapper_app_extra (cs extra : list string) :
  (∀ c, c ∈ extra → lower c ∉ required) → mapper (cs ++ extra) = mapper cs.
Proof.
  intros Hex. unfold mapper. rewrite !lookup_total_alt.
  rewrite !cols_app_extra; [done|intros c Hc ?; apply (Hex c Hc); simplify_eq..];
    unfold required; rewrite !elem_of_cons; auto.
Qed.

(** X7: columns the routine does not ask for are ignored: appending
    columns whose headers match none of the four required names (case
    ignored) to a dataset whose rows are as long as its header changes
    nothing in what a call returns or raises. *)
Theorem extra_columns_are_ignored (df1 df2 : ref) (tz_name : string)
    (in_prog_set done_set : gset string) (h1 h2 : heap) (extra : list string) :
  columns (h2 !!! df2) = columns (h1 !!! df1) ++ extra →
  (∀ c, c ∈ extra → lower c ∉ required) →
  Forall2 (λ r1 r2, (length (columns (h1 !!! df1)) ≤ length r1)%nat
                    ∧ ∃ more, r2 = r1 ++ more)
    (values (h1 !!! df1)) (values (h2 !!! df2)) →
  (compute_metrics to_datetime today_in df1 tz_name in_prog_set done_set h1).2
  = (compute_metrics to_datetime today_in df2 tz_name in_prog_set done_set h2).2.
Proof.
  intros Hcs Hex Hrows. rewrite !compute_metrics_outcome.
  set (raw1 := h1 !!! df1) in *. set (raw2 := h2 !!! df2) in *.
  assert (missing (columns raw2) = missing (columns raw1)) as Hmiss.
  { rewrite Hcs. unfold missing. apply filter_ext_elem_of. intros n Hn.
    rewrite cols_app_extra; [done|]. intros c Hc Hl. apply (Hex c Hc). by rewrite Hl. }
  unfold outcome. rewrite Hmiss.
  destruct (decide (missing (columns raw1) = [])) as [Hm|]; [|done].
  assert (columns (rename (mapper (columns raw2)) raw2)
          = columns (rename (mapper (columns raw1)) raw1) ++ extra) as Hren.
  { cbn [rename columns]. rewrite Hcs, mapper_app_extra, fmap_app by done. f_equal.
    rewrite <- (list_fmap_id extra) at 2. apply list_fmap_ext. intros i c Hc.
    rewrite mapper_lookup_extra; [done..|].
    apply Hex. by eapply list_elem_of_lookup_2. }
  assert (∀ label, lower label ∈ required → label ∉ extra) as Hlabel.
  { intros label Hl Hin. by apply (Hex label Hin). }
  assert (locate (columns (rename (mapper (columns raw2)) raw2))
          = locate (columns (rename (mapper (columns raw1)) raw1))) as Hloc.
  { rewrite Hren. unfold locate.
    rewrite !get_loc_app_extra; [done|apply Hlabel..];
      vm_compute; repeat constructor. }
  assert (working_set to_datetime raw2 = working_set to_datetime raw1) as Hws.
  { unfold working_set. rewrite Hloc.
    destruct (locate (columns (rename (mapper (columns raw1)) raw1)))
      as [|[[[k d] s] n]] eqn:Hpos; [done|]. f_equal.
    apply locate_inr in Hpos as (Hk & Hd & Hs & Hn).
    assert (∀ label i,
      get_loc label (columns (rename (mapper (columns raw1)) raw1)) = Some i →
      (i < length (columns raw1))%nat) as Hlt.
    { intros label i Hi%get_loc_Some%lookup_lt_Some.
      cbn [rename columns] in Hi. by rewrite length_fmap in Hi. }
    symmetry. eapply Forall2_fmap_eq; [|exact Hrows].
    intros r1 r2 (Hlen & more & ->). unfold event_of, cell_at.
    rewrite !lookup_total_app_l; [done|..];
      (eapply Nat.lt_le_trans; [eapply Hlt; eassumption|done]). }
  by rewrite Hloc, Hws.
Qed.

(** *** A longer history *)

Lemma series_min_mono (l1 l2 : list cell) (t1 : Timestamp) :
  (∀ t, Ts t ∈ l1 → Ts t ∈ l2) →
  series_min l1 = Some t1 →
  ∃ t2, series_min l2 = Some t2 ∧ t2 ≤ t1.
Proof.
  intros Hsub [Hin _]%series_min_Some. apply Hsub in Hin.
  destruct (series_min l2) as [t2|] eqn:H2.
  - exists t2. split; [done|]. apply series_min_Some in H2 as [_ Hle]. by apply Hle.
  - by destruct (series_min_None _ H2 t1).
Qed.

(** X12: rows added to a dataset never remove a key from the result table
    and can only move its dates earlier: when the calls on a dataset and on
    a larger one both return, every row of the table of the smaller dataset
    has a row of the same key in the table of the larger one, whose
    in-progress date and done date are present whenever they were, and not
    later. *)
Theorem more_rows_earlier_dates (df1 df2 : ref) (tz_name : string)
    (in_prog_set done_set : gset string) (h1 h2 : heap)
    (results1 results2 : list MetricResult) (statuses1 statuses2 : list string)
    (r1 : MetricResult) :
  columns (h1 !!! df1) = columns (h2 !!! df2) →
  (∀ row, row ∈ values (h1 !!! df1) → row ∈ values (h2 !!! df2)) →
  (compute_metrics to_datetime today_in df1 tz_name in_prog_set done_set h1).2
    = inr (results1, statuses1) →
  (compute_metrics to_datetime today_in df2 tz_name in_prog_set done_set h2).2
    = inr (results2, statuses2) →
  r1 ∈ results1 →
  ∃ r2,
    r2 ∈ results2
    ∧ Key r2 = Key r1
    ∧ (∀ t1, In_Progress_Date r1 = Some t1 →
             ∃ t2, In_Progress_Date r2 = Some t2 ∧ t2 ≤ t1)
    ∧ (∀ t1, Done_Date r1 = Some t1 → ∃ t2, Done_Date r2 = Some t2 ∧ t2 ≤ t1).
Proof.
  intros Hcs Hrows Hcall1 Hcall2 Hr1.
  set (raw1 := h1 !!! df1) in *. set (raw2 := h2 !!! df2) in *.
  assert (∀ e, e ∈ working_set to_datetime raw1 → e ∈ working_set to_datetime raw2)
    as Hws.
  { intros e. unfold working_set. cbn [rename columns]. rewrite <- Hcs.
    destruct (locate _) as [|[[[k d] s] n]]; [done|].
    rewrite !list_elem_of_filter, !list_elem_of_fmap. naive_solver. }
  destruct (result_row _ _ _ _ _ _ _ _ _ _ Hcall1 Hr1)
    as (today & _ & Hip1 & Hdn1 & _ & _ & e & He & Hk & Hin).
  fold raw1 in Hip1, Hdn1, He.
  assert (Key r1 ∈ Key <$> results2) as (r2 & Hk2 & Hr2)%list_elem_of_fmap.
  { pose proof Hcall2 as (today2 & _ & -> & _)%returned_table.
    rewrite Key_results, elem_of_merge_outer_keys, !groupby_min_keys.
    setoid_rewrite list_elem_of_filter.
    destruct (working_set_retained _ _ _ He) as [Hna _]. rewrite Hk in Hna.
    destruct Hin; [left|right]; (split; [done|]); exists e; auto. }
  destruct (result_row _ _ _ _ _ _ _ _ _ _ Hcall2 Hr2)
    as (today2 & _ & Hip2 & Hdn2 & _).
  fold raw2 in Hip2, Hdn2.
  exists r2. split_and!; [done..| |].
  - intros t1 Ht1. rewrite Hip2, <- Hk2. rewrite Hip1 in Ht1.
    eapply series_min_mono; [|exact Ht1]. intros t.
    rewrite !list_elem_of_fmap. setoid_rewrite list_elem_of_filter.
    intros (e' & ? & ? & [? ?]%list_elem_of_filter). exists e'.
    rewrite list_elem_of_filter. auto.
  - intros t1 Ht1. rewrite Hdn2, <- Hk2. rewrite Hdn1 in Ht1.
    eapply series_min_mono; [|exact Ht1]. intros t.
    rewrite !list_elem_of_fmap. setoid_rewrite list_elem_of_filter.
    intros (e' & ? & ? & [? ?]%list_elem_of_filter). exists e'.
    rewrite list_elem_of_filter. auto.
Qed.

(** *** The status list and the settings *)

(** X13: the status list does not depend on the alias sets nor on the time
    zone: two calls on the same dataset that both return give the same
    list, whatever their settings. *)
Theorem statuses_independent_of_settings (df_raw : ref) (tz1 tz2 : string)
    (in_prog1 done1 in_prog2 done2 : gset string) (h : heap)
    (results1 results2 : list MetricResult) (statuses1 statuses2 : list string) :
  (compute_metrics to_datetime today_in df_raw tz1 in_prog1 done1 h).2
    = inr (results1, statuses1) →
  (compute_metrics to_datetime today_in df_raw tz2 in_prog2 done2 h).2
    = inr (results2, statuses2) →
  statuses1 = statuses2.
Proof.
  intros (_ & _ & _ & ->)%returned_table (_ & _ & _ & ->)%returned_table. done.
Qed.

End table.

(** ** The sidebar: the alias sets *)







(** ** More scenarios, run *)

Lemma call_board :
  (call board).2 = inr (board_results, ["DONE"; "IN PROGRESS"; "TO DO"]).
Proof. vm_compute. reflexivity. Qed.

Lemma parse_default_aliases :
  parse_aliases default_in_progress_text = default_in_progress
  ∧ parse_aliases default_done_text = default_done
  ∧ parse_aliases " wip , ,In Review,," = {[ "WIP"; "IN REVIEW" ]}.
Proof. split_and!; vm_compute; reflexivity. Qed.

Lemma one_row_per_key_witness :
  (call board).2 = inr (board_results, ["DONE"; "IN PROGRESS"; "TO DO"])
  ∧ NoDup (Key <$> board_results).
Proof.
  split; [exact call_board|].
  exact (one_row_per_key iso_to_datetime clock_2024_01_10 0%nat "UTC"
           default_in_progress default_done [board]
           board_results ["DONE"; "IN PROGRESS"; "TO DO"] call_board).
Defined.

Lemma keys_of_result_table_witness :
  (call board).2 = inr (board_results, ["DONE"; "IN PROGRESS"; "TO DO"])
  ∧ (Str "K2" ∈ Key <$> board_results
     ↔ ∃ e, e ∈ working_set iso_to_datetime board
            ∧ Event.Key e = Str "K2"
            ∧ (isin default_in_progress (Event.Status_new e)
               ∨ isin default_done (Event.Status_new e))).
Proof.
  split; [exact call_board|].
  exact (keys_of_result_table iso_to_datetime clock_2024_01_10 0%nat "UTC"
           default_in_progress default_done [board]
           board_results ["DONE"; "IN PROGRESS"; "TO DO"] (Str "K2") call_board).
Defined.

Lemma result_table_sorted_witness :
  (call board).2 = inr (board_results, ["DONE"; "IN PROGRESS"; "TO DO"])
  ∧ StronglySorted metric_key_le board_results.
Proof.
  split; [exact call_board|].
  exact (proj1 (result_table_sorted iso_to_datetime clock_2024_01_10 0%nat "UTC"
                  default_in_progress default_done [board]
                  board_results ["DONE"; "IN PROGRESS"; "TO DO"] call_board)).
Defined.

Lemma unknown_time_zone_witness :
  clock_2024_01_10 "Mars/Olympus" = None
  ∧ (compute_metrics iso_to_datetime (λ _, Some (days_from_civil 2024 1 10)) 0%nat
       "Mars/Olympus" default_in_progress default_done [scenario_K1]).2
    = inr (scenario_K1_results, scenario_K1_statuses)
  ∧ (compute_metrics iso_to_datetime clock_2024_01_10 0%nat "Mars/Olympus"
       default_in_progress default_done [scenario_K1]).2
    = inl (UnknownTimeZoneError "Mars/Olympus")
  ∧ (compute_metrics iso_to_datetime clock_2024_01_10 0%nat "Mars/Olympus"
       default_in_progress default_done [missing_status_new]).2
    = inl (ValueError ["status [new]"]).
Proof.
  assert (clock_2024_01_10 "Mars/Olympus" = None) as Htz by reflexivity.
  assert ((compute_metrics iso_to_datetime (λ _, Some (days_from_civil 2024 1 10))
             0%nat "Mars/Olympus" default_in_progress default_done [scenario_K1]).2
          = inr (scenario_K1_results, scenario_K1_statuses)) as Hknown
    by (vm_compute; reflexivity).
  split; [exact Htz|]. split; [exact Hknown|]. split.
  - exact (proj2 (proj2 (unknown_time_zone iso_to_datetime clock_2024_01_10
                           (λ _, Some (days_from_civil 2024 1 10)) 0%nat
                           "Mars/Olympus" default_in_progress default_done
                           [scenario_K1] Htz)) _ Hknown).
  - apply (proj1 (proj2 (unknown_time_zone iso_to_datetime clock_2024_01_10
                           (λ _, Some (days_from_civil 2024 1 10)) 0%nat
                           "Mars/Olympus" default_in_progress default_done
                           [missing_status_new] Htz))).
    vm_compute. discriminate.
Defined.

Lemma table_ignores_old_status_witness :
  (call scenario_K1).2 = inr (scenario_K1_results, scenario_K1_statuses)
  ∧ ∃ statuses', (call scenario_K1_other_status).2 = inr (scenario_K1_results, statuses').
Proof.
  split; [exact call_scenario_K1|].
  apply (table_ignores_old_status iso_to_datetime clock_2024_01_10 0%nat 0%nat "UTC"
           default_in_progress default_done [scenario_K1] [scenario_K1_other_status]
           0%nat 1%nat 2%nat 3%nat scenario_K1_results scenario_K1_statuses).
  - reflexivity.
  - vm_compute. reflexivity.
  - repeat constructor.
  - exact call_scenario_K1.
Defined.

Lemma statuses_compared_in_normal_form_witness :
  (call scenario_K1).2 = (call scenario_K1_untidy).2.
Proof.
  apply (statuses_compared_in_normal_form iso_to_datetime clock_2024_01_10
           0%nat 0%nat "UTC" default_in_progress default_done
           [scenario_K1] [scenario_K1_untidy] 0%nat 1%nat 2%nat 3%nat).
  - reflexivity.
  - vm_compute. reflexivity.
  - repeat constructor.
Defined.

Lemma rows_are_read_as_a_set_witness :
  (call scenario_K1).2 = (call scenario_K1_shuffled).2.
Proof.
  apply (rows_are_read_as_a_set iso_to_datetime clock_2024_01_10 0%nat 0%nat "UTC"
           default_in_progress default_done [scenario_K1] [scenario_K1_shuffled]).
  - reflexivity.
  - intros row. change (values ([scenario_K1] !!! 0%nat)) with (values scenario_K1).
    change (values ([scenario_K1_shuffled] !!! 0%nat))
      with (values scenario_K1_shuffled).
    unfold scenario_K1, scenario_K1_shuffled. cbn [values].
    rewrite !elem_of_cons, !elem_of_nil. tauto.
Defined.

Lemma extra_columns_are_ignored_witness :
  (call scenario_K1).2 = (call scenario_K1_wide).2.
Proof.
  apply (extra_columns_are_ignored iso_to_datetime clock_2024_01_10 0%nat 0%nat "UTC"
           default_in_progress default_done [scenario_K1] [scenario_K1_wide]
           ["Summary"; "Assignee"]).
  - reflexivity.
  - intros c. rewrite !elem_of_cons, elem_of_nil.
    intros [->|[->|[]]]; vm_compute; intros Hin;
      repeat (apply elem_of_cons in Hin as [Hin|Hin]; [discriminate|]);
      by apply elem_of_nil in Hin.
  - repeat constructor; by eexists.
Defined.


Lemma normalize_status_idempotent_witness :
  ascii_text (Str "  in Progress ")
  ∧ normalize_status (Str "  in Progress ") = Str "IN PROGRESS"
  ∧ normalize_status (normalize_status (Str "  in Progress "))
    = normalize_status (Str "  in Progress ").
Proof.
  split; [reflexivity|]. split; [reflexivity|].
  exact (proj1 (normalize_status_idempotent (Str "  in Progress ") I)).
Defined.

Lemma call_board_before :
  (call board_before).2 = inr ([board_before_K1; board_before_K3],
                               ["DONE"; "IN PROGRESS"; "TO DO"]).
Proof. vm_compute. reflexivity. Qed.

Lemma more_rows_earlier_dates_witness :
  (call board_before).2 = inr ([board_before_K1; board_before_K3],
                               ["DONE"; "IN PROGRESS"; "TO DO"])
  ∧ (call board).2 = inr (board_results, ["DONE"; "IN PROGRESS"; "TO DO"])
  ∧ ∃ r2,
      r2 ∈ board_results
      ∧ Key r2 = Str "K1"
      ∧ (∀ t1, In_Progress_Date board_before_K1 = Some t1 →
               ∃ t2, In_Progress_Date r2 = Some t2 ∧ t2 ≤ t1)
      ∧ (∀ t1, Done_Date board_before_K1 = Some t1 →
               ∃ t2, Done_Date r2 = Some t2 ∧ t2 ≤ t1).
Proof.
  split; [exact call_board_before|]. split; [exact call_board|].
  apply (more_rows_earlier_dates iso_to_datetime clock_2024_01_10 0%nat 0%nat "UTC"
           default_in_progress default_done [board_before] [board]
           [board_before_K1; board_before_K3] board_results
           ["DONE"; "IN PROGRESS"; "TO DO"] ["DONE"; "IN PROGRESS"; "TO DO"]
           board_before_K1).
  - reflexivity.
  - intros row. change (values ([board_before] !!! 0%nat)) with (values board_before).
    change (values ([board] !!! 0%nat)) with (values board).
    unfold board_before, board. cbn [values].
    rewrite !elem_of_cons, !elem_of_nil. tauto.
  - exact call_board_before.
  - exact call_board.
  - apply list_elem_of_here.
Defined.

Lemma call_board_other_settings :
  (compute_metrics iso_to_datetime clock_2024_01_10 0%nat "America/New_York"
     {[ "DONE" ]} ∅ [board]).2
  = inr ([ {| Key := Str "K1"; In_Progress_Date := Some (timestamp_of 2024 1 5 0 0 0);
              Done_Date := None; Days := Some 6; Metric_Type := Some "Work Item Age" |};
           {| Key := Str "K2"; In_Progress_Date := Some (timestamp_of 2024 1 5 0 0 0);
              Done_Date := None; Days := Some 6; Metric_Type := Some "Work Item Age" |} ],
         ["DONE"; "IN PROGRESS"; "TO DO"]).
Proof. vm_compute. reflexivity. Qed.

Lemma statuses_independent_of_settings_witness :
  ["DONE"; "IN PROGRESS"; "TO DO"] = ["DONE"; "IN PROGRESS"; "TO DO"].
Proof.
  exact (statuses_independent_of_settings iso_to_datetime clock_2024_01_10 0%nat
           "UTC" "America/New_York" default_in_progress default_done {[ "DONE" ]} ∅
           [board] _ _ _ _ call_board call_board_other_settings).
Defined.
